(** * optimize_images.py: a shallow embedding and its properties

    The script shrinks the pictures of a directory: each one is opened
    with Pillow, flattened to RGB, scaled down when wider than
    [max_width], and saved again as PNG or JPEG.

    The embedding follows the three functions of the script,
    [optimize_image], [optimize_directory] and [main].  Python's
    exceptions are an error monad over the state of the world (the file
    system and the console); integers are [Z]; the floating-point
    arithmetic of the script is done on binary64 numbers, as in CPython;
    paths are strings.  Pillow itself is a parameter: its codecs and the
    conditions under which it raises are left open, and every theorem
    holds for all of them. *)

From Stdlib Require Import ZArith List String Ascii Bool Lia.
From Stdlib Require Import PrimFloat SpecFloat FloatOps.
From stdpp Require Import base gmap strings list.

Open Scope Z_scope.

(** ** Exceptions *)

(** The subclasses of [Exception] that the calls of the script raise. *)
Inductive exn : Type :=
| FileNotFoundError
| FileExistsError
| IsADirectoryError
| NotADirectoryError
| PermissionError
| OSError
| UnidentifiedImageError
| ValueError
| IndexError
| MemoryError
| ZeroDivisionError
| OverflowError.

(** What travels up the stack: an [Exception], which [except Exception]
    catches, or the [SystemExit] of [sys.exit], which it does not. *)
Inductive raised : Type :=
| Exception (e : exn)
| SystemExit (code : Z).

(** The result of a library call: a value or an exception. *)
Inductive result (A : Type) : Type :=
| Ok (a : A)
| Err (e : exn).
Arguments Ok {A} a.
Arguments Err {A} e.

(** ** Strings and paths *)

Module PyStr.

Open Scope string_scope.
Open Scope Z_scope.

(** [c.lower()] on one character: only A..Z change.  Outside ASCII a
    path is held as its UTF-8 bytes, none of which is a letter. *)
Definition lower_char (c : ascii) : ascii :=
  let n := nat_of_ascii c in
  if ((65 <=? n) && (n <=? 90))%nat then ascii_of_nat (n + 32) else c.

(** [s.lower()] *)
Fixpoint lower (s : string) : string :=
  match s with
  | EmptyString => EmptyString
  | String c s' => String (lower_char c) (lower s')
  end.

(** [s.endswith(suffix)]: [suffix] is [s] or ends the tail of [s]. *)
Fixpoint endswith (s suffix : string) : bool :=
  String.eqb s suffix ||
  match s with
  | EmptyString => false
  | String _ s' => endswith s' suffix
  end.

(** [s.endswith((suffix1, suffix2, ...))] *)
Definition endswith_any (s : string) (suffixes : list string) : bool :=
  existsb (endswith s) suffixes.

(** [s.startswith(prefix)] *)
Definition startswith (s pre : string) : bool := String.prefix pre s.

(** [s.rfind(c)] for a character [c]: the last index of [c], or -1. *)
Fixpoint rfind (c : ascii) (s : string) : Z :=
  match s with
  | EmptyString => -1
  | String x s' =>
      let i := rfind c s' in
      if 0 <=? i then i + 1 else if Ascii.eqb x c then 0 else -1
  end.

(** [s[:i]] and [s[i:]] for [0 <= i]. *)
Definition upto (i : Z) (s : string) : string :=
  substring 0 (Z.to_nat i) s.
Definition from (i : Z) (s : string) : string :=
  substring (Z.to_nat i) (String.length s - Z.to_nat i) s.

(** The loop of [genericpath._splitext] that skips the leading dots of
    the file name: [name] is [p[sepIndex+1:dotIndex]], and the loop
    answers whether it meets a character other than a dot. *)
Fixpoint has_non_dot (name : string) : bool :=
  match name with
  | EmptyString => false
  | String c name' => if Ascii.eqb c "." then has_non_dot name' else true
  end.

(** [os.path.splitext(p)] of posixpath. *)
Definition splitext (p : string) : string * string :=
  let sepIndex := rfind "/" p in
  let dotIndex := rfind "." p in
  if (sepIndex <? dotIndex)
     && has_non_dot (substring (Z.to_nat (sepIndex + 1))
                               (Z.to_nat (dotIndex - (sepIndex + 1))) p)
  then (upto dotIndex p, from dotIndex p)
  else (p, "").

(** [os.path.join(a, b)] of posixpath. *)
Definition join (a b : string) : string :=
  if startswith b "/" then b
  else if String.eqb a "" || endswith a "/" then a +:+ b
  else a +:+ "/" +:+ b.

(** [os.path.basename(p)] of posixpath. *)
Definition basename (p : string) : string := from (rfind "/" p + 1) p.

End PyStr.

(** ** Numbers *)

Module PyNum.

(** An integer as a binary float without rounding: the significand is
    as long as the integer. *)
Definition Z2SF (z : Z) : spec_float :=
  match z with
  | Z0 => S754_zero false
  | Zpos p => S754_finite false p 0
  | Zneg p => S754_finite true p 0
  end.

(** [float(z)]: the nearest binary64 number, ties to even; infinity
    where CPython raises [OverflowError] (from 2^1024 on). *)
Definition float_of_int (z : Z) : float :=
  SF2Prim (binary_normalize prec emax z 0 false).

(** The quotient of two integers rounded once to binary64, as
    [long_true_divide] computes it.  Beyond the range of binary64
    (a quotient of 2^1024 or more, which no file size and no picture
    dimension reaches) CPython raises [OverflowError]; the embedding
    keeps IEEE's infinity there. *)
Definition fdiv_int (a b : Z) : float :=
  SF2Prim (SFdiv prec emax (Z2SF a) (Z2SF b)).

(** [a / b] on integers. *)
Definition truediv (a b : Z) : result float :=
  if b =? 0 then Err ZeroDivisionError else Ok (fdiv_int a b).

(** [int(x)]: truncation toward zero. *)
Definition int_of_float (x : float) : result Z :=
  match Prim2SF x with
  | S754_zero _ => Ok 0
  | S754_finite s m e =>
      let v := match e with
               | Zneg k => Z.shiftr (Zpos m) (Zpos k)
               | _ => Z.shiftl (Zpos m) e
               end in
      Ok (if s then - v else v)
  | S754_infinity _ => Err OverflowError
  | S754_nan => Err ValueError
  end.

(** A number that is an [int] on one path and a [float] on another. *)
Inductive num : Type :=
| Int (z : Z)
| Float (x : float).

End PyNum.

(** ** Pictures *)

(** Pillow's resampling filters; the script asks for one of them. *)
Inductive Resampling : Type := NEAREST | BILINEAR | BICUBIC | LANCZOS.

(** The pixels of a picture, as the history of the Pillow calls that
    made them: what the calls compute on the samples is Pillow's
    business, which calls are made and on what is the script's. *)
Inductive Pixels : Type :=
| Raster (data : list Byte.byte)
| Fill (color : Z * Z * Z)
| Band (i : nat) (p : Pixels)
| Paste (onto src mask : Pixels)
| Convert (to : string) (p : Pixels)
| Resample (filter : Resampling) (size : Z * Z) (p : Pixels).

(** A [PIL.Image.Image]. *)
Record Image : Type := mkImage {
  mode : string;
  size : Z * Z;
  format : option string;
  pixels : Pixels
}.

Definition width (img : Image) : Z := fst (size img).
Definition height (img : Image) : Z := snd (size img).

(** The keyword arguments of [img.save]; [None] is an argument left out. *)
Record SaveOpts : Type := mkSaveOpts {
  opt_quality : option Z;
  opt_optimize : option bool;
  opt_compress_level : option Z
}.

(** The calls into Pillow that work on pictures in memory. *)
Inductive PilOp : Type :=
| OpNew (mode : string) (size : Z * Z) (color : Z * Z * Z)
| OpSplit (img : Image)
| OpPaste (onto src mask : Image)
| OpConvert (img : Image) (to : string)
| OpResize (img : Image) (size : Z * Z) (filter : Resampling).

(** What the script does not decide about Pillow: how the bytes of a
    file decode, what [save] leaves at a path (it sees the files already
    there), and which calls Pillow refuses, with which exception. *)
Record Pillow : Type := mkPillow {
  pil_decode : list Byte.byte -> result Image;
  pil_encode : gmap string (list Byte.byte) -> string -> string -> SaveOpts ->
               Image -> result (list Byte.byte);
  pil_refuses : PilOp -> option exn
}.

(** ** The world: files, directories, console *)

(** One constructor for each [print] of the script; a line carries the
    values its f-string interpolates, before they are formatted. *)
Inductive Msg : Type :=
| MsgResized (w h original_width original_height : Z)
| MsgDone (name : string)
| MsgFormat (output_format : string)
| MsgOriginalKB (kb : float)
| MsgNewKB (kb : float)
| MsgRatio (compression_ratio : PyNum.num)
| MsgFailed (e : exn)
| MsgNoDirectory (directory : string)
| MsgNoImages (directory : string)
| MsgFound (n : Z)
| MsgSettings (max_width jpeg_quality : Z) (png_optimize : bool)
| MsgRule (c : string) (n : Z)
| MsgProcessing (image_file : string)
| MsgFinished
| MsgSucceeded (success_count n : Z)
| MsgTotalSize (original_mb new_mb : float)
| MsgSaved (saved_mb : float) (total_compression : PyNum.num)
| MsgBadQuality.

(** [files] are the regular files with their bytes; [dirs] are the
    directories, each with the names [os.listdir] gives for it when the
    run starts; [console] is what was printed, oldest line first. *)
Record World : Type := mkWorld {
  files : gmap string (list Byte.byte);
  dirs : gmap string (list string);
  console : list Msg
}.

Inductive outcome (A : Type) : Type :=
| Ret (a : A)
| Raise (r : raised).
Arguments Ret {A} a.
Arguments Raise {A} r.

(** A computation: from a world to what it returns or raises, and the
    world it leaves. *)
Definition M (A : Type) : Type := World -> outcome A * World.

#[global] Instance M_ret : MRet M := fun A a w => (Ret a, w).

#[global] Instance M_bind : MBind M := fun A B f m w =>
  match m w with
  | (Ret a, w') => f a w'
  | (Raise r, w') => (Raise r, w')
  end.

Definition raise {A : Type} (e : exn) : M A :=
  fun w => (Raise (Exception e), w).

Definition lift {A : Type} (r : result A) : M A :=
  match r with
  | Ok a => mret a
  | Err e => raise e
  end.

(** [try: body  except Exception as e: handler e] *)
Definition try_except {A : Type} (body : M A) (handler : exn -> M A) : M A :=
  fun w =>
    match body w with
    | (Raise (Exception e), w') => handler e w'
    | r => r
    end.

(** The world after some more lines on the console. *)
Definition say (w : World) (lines : list Msg) : World :=
  mkWorld (files w) (dirs w) (console w ++ lines).

(** The world after [data] is written at [path]. *)
Definition write (w : World) (path : string) (data : list Byte.byte) : World :=
  mkWorld (<[path := data]> (files w)) (dirs w) (console w).

(** [print(...)]; writing to the console is taken not to fail. *)
Definition print (m : Msg) : M unit :=
  fun w => (Ret tt, say w [m]).

(** [sys.exit(code)] *)
Definition sys_exit {A : Type} (code : Z) : M A :=
  fun w => (Raise (SystemExit code), w).

(** [for x in xs: s = body s x] *)
Fixpoint for_each {A S : Type} (xs : list A) (body : S -> A -> M S) (s : S) : M S :=
  match xs with
  | [] => mret s
  | x :: xs' => s' ← body s x; for_each xs' body s'
  end.

(** ** The operating system *)

(** The directories with [d] among them: a directory that is there
    stays as it is, one that is not is made, empty. *)
Definition with_dir (d : string) (ds : gmap string (list string)) :
    gmap string (list string) :=
  match ds !! d with
  | Some _ => ds
  | None => <[d := []]> ds
  end.

(** The paths above a path: what stands before each [/] of it, the
    shortest first.  [before] is what was read of the path, [rest] what
    is left to read. *)
Fixpoint above (before rest : string) : list string :=
  match rest with
  | EmptyString => []
  | String c rest' =>
      let deeper := above (before +:+ String c EmptyString) rest' in
      if Ascii.eqb c "/" && negb (String.eqb before "")
      then before :: deeper
      else deeper
  end.

Definition ancestors (p : string) : list string := above "" p.

(** A path without the separators that end it. *)
Fixpoint rstrip_sep (p : string) : string :=
  match p with
  | EmptyString => EmptyString
  | String c rest =>
      let rest' := rstrip_sep rest in
      if Ascii.eqb c "/" && String.eqb rest' "" then EmptyString else String c rest'
  end.

Module os.

Definition path_exists (p : string) : M bool :=
  fun w => (Ret (bool_decide (is_Some (dirs w !! p))
                 || bool_decide (is_Some (files w !! p))), w).

Definition path_isfile (p : string) : M bool :=
  fun w => (Ret (bool_decide (is_Some (files w !! p))), w).

(** [os.path.getsize]: the length of a file; for a directory the size
    of its own entry, one block here. *)
Definition path_getsize (p : string) : M Z :=
  fun w =>
    match files w !! p with
    | Some data => (Ret (Z.of_nat (length data)), w)
    | None =>
        match dirs w !! p with
        | Some _ => (Ret 4096, w)
        | None => (Raise (Exception FileNotFoundError), w)
        end
    end.

Definition listdir (p : string) : M (list string) :=
  fun w =>
    match dirs w !! p with
    | Some names => (Ret names, w)
    | None =>
        match files w !! p with
        | Some _ => (Raise (Exception NotADirectoryError), w)
        | None => (Raise (Exception FileNotFoundError), w)
        end
    end.

(** [os.makedirs(p, exist_ok=True)].  Nothing is done when [p] is a
    directory.  It raises [FileExistsError] when [p] is a regular file,
    also when separators follow the name of the file,
    [FileNotFoundError] on the empty path, and [NotADirectoryError] when
    a path above [p] is a regular file.  Else it makes [p] and the
    directories above it that are missing.  The listing of a directory
    stays the one of the start of the run: the script lists once, at
    line 110, before it makes or writes anything. *)
Definition makedirs (p : string) : M unit :=
  fun w =>
    match dirs w !! p with
    | Some _ => (Ret tt, w)
    | None =>
        match files w !! p with
        | Some _ => (Raise (Exception FileExistsError), w)
        | None =>
            if String.eqb p "" then (Raise (Exception FileNotFoundError), w)
            else if bool_decide (is_Some (files w !! rstrip_sep p))
            then (Raise (Exception FileExistsError), w)
            else if existsb (fun a => bool_decide (is_Some (files w !! a))) (ancestors p)
            then (Raise (Exception NotADirectoryError), w)
            else (Ret tt, mkWorld (files w)
                                  (foldr with_dir (dirs w) (p :: ancestors p))
                                  (console w))
        end
    end.

End os.

(** ** Pillow's calls *)

Section Pil.

Variable P : Pillow.

(** A call on pictures in memory: Pillow refuses it or gives [r]. *)
Definition pil_call (op : PilOp) (r : Image) : M Image :=
  match pil_refuses P op with
  | Some e => raise e
  | None => mret r
  end.

(** [Image.open(path)] *)
Definition Image_open (path : string) : M Image :=
  fun w =>
    match files w !! path with
    | Some data => lift (pil_decode P data) w
    | None =>
        match dirs w !! path with
        | Some _ => (Raise (Exception IsADirectoryError), w)
        | None => (Raise (Exception FileNotFoundError), w)
        end
    end.

(** [Image.new(mode, size, color)] *)
Definition Image_new (m : string) (sz : Z * Z) (color : Z * Z * Z) : M Image :=
  pil_call (OpNew m sz color) (mkImage m sz None (Fill color)).

(** [len(img.getbands())] *)
Definition nbands (m : string) : nat :=
  if existsb (String.eqb m) ["RGBA"; "CMYK"; "RGBX"; "RGBa"]%string then 4
  else if existsb (String.eqb m) ["RGB"; "YCbCr"; "LAB"; "HSV"]%string then 3
  else if existsb (String.eqb m) ["LA"; "PA"; "La"]%string then 2
  else 1.

(** [img.split()]: one picture of mode L for each band. *)
Definition Image_split (img : Image) : M (list Image) :=
  _ ← pil_call (OpSplit img) img;
  mret (map (fun i => mkImage "L" (size img) None (Band i (pixels img)))
            (seq 0 (nbands (mode img)))).

(** [xs[i]] *)
Definition index {A : Type} (xs : list A) (i : nat) : M A :=
  match xs !! i with
  | Some x => mret x
  | None => raise IndexError
  end.

(** [onto.paste(src, mask=mask)]; the picture pasted onto is changed
    in place, and is what the call gives here. *)
Definition Image_paste (onto src mask : Image) : M Image :=
  pil_call (OpPaste onto src mask)
    (mkImage (mode onto) (size onto) (format onto)
             (Paste (pixels onto) (pixels src) (pixels mask))).

(** [img.convert(to)] *)
Definition Image_convert (img : Image) (to : string) : M Image :=
  pil_call (OpConvert img to)
    (mkImage to (size img) None (Convert to (pixels img))).

(** [img.resize(sz, filter)] *)
Definition Image_resize (img : Image) (sz : Z * Z) (filter : Resampling) : M Image :=
  pil_call (OpResize img sz filter)
    (mkImage (mode img) sz None (Resample filter sz (pixels img))).

(** [img.save(path, fmt, **opts)].  When Pillow raises, what it leaves
    at [path] is not followed: the files stay as they were. *)
Definition Image_save (img : Image) (path fmt : string) (opts : SaveOpts) : M unit :=
  fun w =>
    match pil_encode P (files w) path fmt opts img with
    | Ok data => (Ret tt, write w path data)
    | Err e => (Raise (Exception e), w)
    end.

End Pil.

(** ** The script *)

Section Script.

Variable P : Pillow.

Import PyStr.
Open Scope string_scope.
Open Scope Z_scope.

(** Lines 36-46: any mode but RGB is turned into RGB; RGBA is pasted
    on a white picture through its fourth band. *)
Definition convert_to_rgb (img : Image) : M Image :=
  if existsb (String.eqb (mode img)) ["RGBA"; "LA"; "P"] then
    if String.eqb (mode img) "RGBA" then
      background ← Image_new P "RGB" (size img) (255, 255, 255);
      bands ← Image_split P img;
      alpha ← index bands 3;
      Image_paste P background img alpha
    else Image_convert P img "RGB"
  else if negb (String.eqb (mode img) "RGB") then Image_convert P img "RGB"
  else mret img.

(** Line 51: [int(img.height * ratio)]. *)
Definition scaled_height (h : Z) (ratio : float) : result Z :=
  PyNum.int_of_float (PrimFloat.mul (PyNum.float_of_int h) ratio).

(** Lines 49-53. *)
Definition resize_to_max_width (img : Image)
    (max_width original_width original_height : Z) : M Image :=
  if max_width <? width img then
    ratio ← lift (PyNum.truediv max_width (width img));
    new_height ← lift (scaled_height (height img) ratio);
    img ← Image_resize P img (max_width, new_height) LANCZOS;
    _ ← print (MsgResized (width img) (height img) original_width original_height);
    mret img
  else mret img.

Definition png_best : SaveOpts := mkSaveOpts None (Some true) (Some 9).
Definition png_plain : SaveOpts := mkSaveOpts None None None.
Definition jpeg_opts (jpeg_quality : Z) : SaveOpts :=
  mkSaveOpts (Some jpeg_quality) (Some true) None.

(** Lines 60-74; gives the path written and the format. *)
Definition save_image (img : Image) (output_path : string)
    (jpeg_quality : Z) (png_optimize : bool) : M (string * string) :=
  if endswith (lower output_path) ".png" then
    _ ← (if png_optimize
         then Image_save P img output_path "PNG" png_best
         else Image_save P img output_path "PNG" png_plain);
    mret (output_path, "PNG")
  else
    let output_path :=
      if negb (endswith_any (lower output_path) [".jpg"; ".jpeg"])
      then fst (splitext output_path) +:+ ".jpg"
      else output_path in
    _ ← Image_save P img output_path "JPEG" (jpeg_opts jpeg_quality);
    mret (output_path, "JPEG").

(** Line 77. *)
Definition compression (new_size original_size : Z) : M PyNum.num :=
  if 0 <? original_size then
    q ← lift (PyNum.truediv new_size original_size);
    mret (PyNum.Float (PrimFloat.mul (PrimFloat.sub 1 q) 100))
  else mret (PyNum.Int 0).

(** The body of the [try] of [optimize_image], lines 27-85. *)
Definition optimize_image_body (input_path : string) (output_path : option string)
    (max_width jpeg_quality : Z) (png_optimize : bool) : M (bool * Z * Z) :=
  original_size ← os.path_getsize input_path;
  first ← Image_open P input_path;
  let '(original_width, original_height) := size first in
  img ← Image_open P input_path;
  img ← convert_to_rgb img;
  img ← resize_to_max_width img max_width original_width original_height;
  let output_path :=
    match output_path with
    | None => input_path
    | Some p => p
    end in
  '(output_path, output_format) ← save_image img output_path jpeg_quality png_optimize;
  new_size ← os.path_getsize output_path;
  compression_ratio ← compression new_size original_size;
  _ ← print (MsgDone (basename output_path));
  _ ← print (MsgFormat output_format);
  original_kb ← lift (PyNum.truediv original_size 1024);
  _ ← print (MsgOriginalKB original_kb);
  new_kb ← lift (PyNum.truediv new_size 1024);
  _ ← print (MsgNewKB new_kb);
  _ ← print (MsgRatio compression_ratio);
  mret (true, original_size, new_size).

(** [optimize_image], lines 12-89. *)
Definition optimize_image (input_path : string) (output_path : option string)
    (max_width jpeg_quality : Z) (png_optimize : bool) : M (bool * Z * Z) :=
  try_except
    (optimize_image_body input_path output_path max_width jpeg_quality png_optimize)
    (fun e => _ ← print (MsgFailed e); mret (false, 0, 0)).

Definition supported_formats : list string :=
  [".jpg"; ".jpeg"; ".png"; ".bmp"; ".gif"; ".webp"].

(** Lines 110-112: the names of [directory] that are files and end in
    a supported extension, in the order of the listing. *)
Fixpoint image_files_of (directory : string) (names : list string) : M (list string) :=
  match names with
  | [] => mret []
  | f :: names' =>
      is_file ← os.path_isfile (join directory f);
      rest ← image_files_of directory names';
      mret (if is_file && endswith_any (lower f) supported_formats
            then f :: rest else rest)
  end.

(** [if output_dir:] holds for a string that is not empty. *)
Definition given (output_dir : option string) : option string :=
  match output_dir with
  | Some d => if String.eqb d "" then None else Some d
  | None => None
  end.

(** Lines 127-139 of the loop: the call of [optimize_image] on one
    file of the directory, and what comes before it. *)
Definition attempt (directory : string) (output_dir : option string)
    (max_width jpeg_quality : Z) (png_optimize : bool)
    (image_file : string) : M (bool * Z * Z) :=
  let input_path := join directory image_file in
  _ ← print (MsgProcessing image_file);
  original_size ← os.path_getsize input_path;
  output_path ← match given output_dir with
                | Some d => _ ← os.makedirs d; mret (Some (join d image_file))
                | None => mret None
                end;
  optimize_image input_path output_path max_width jpeg_quality png_optimize.

(** The body of the loop, lines 127-143, on the three counters. *)
Definition process_file (directory : string) (output_dir : option string)
    (max_width jpeg_quality : Z) (png_optimize : bool)
    (counters : Z * Z * Z) (image_file : string) : M (Z * Z * Z) :=
  let '(success_count, total_original_size, total_new_size) := counters in
  result ← attempt directory output_dir max_width jpeg_quality png_optimize image_file;
  let '(success, result_original, result_new) := result in
  if (success : bool)
  then mret (success_count + 1,
             total_original_size + result_original,
             total_new_size + result_new)
  else mret (success_count, total_original_size, total_new_size).

(** Lines 145-152. *)
Definition summary (n : Z) (counters : Z * Z * Z) : M unit :=
  let '(success_count, total_original_size, total_new_size) := counters in
  _ ← print (MsgRule "=" 60);
  _ ← print MsgFinished;
  _ ← print (MsgSucceeded success_count n);
  if 0 <? success_count then
    let total_saved := total_original_size - total_new_size in
    total_compression ← compression total_new_size total_original_size;
    original_kb ← lift (PyNum.truediv total_original_size 1024);
    new_kb ← lift (PyNum.truediv total_new_size 1024);
    _ ← print (MsgTotalSize (PrimFloat.div original_kb (PyNum.float_of_int 1024))
                            (PrimFloat.div new_kb (PyNum.float_of_int 1024)));
    saved_kb ← lift (PyNum.truediv total_saved 1024);
    print (MsgSaved (PrimFloat.div saved_kb (PyNum.float_of_int 1024)) total_compression)
  else mret tt.

(** [optimize_directory], lines 91-152. *)
Definition optimize_directory (directory : string) (output_dir : option string)
    (max_width jpeg_quality : Z) (png_optimize : bool) : M unit :=
  present ← os.path_exists directory;
  if negb present then print (MsgNoDirectory directory)
  else
    names ← os.listdir directory;
    image_files ← image_files_of directory names;
    match image_files with
    | [] => print (MsgNoImages directory)
    | _ =>
        let n := Z.of_nat (length image_files) in
        _ ← print (MsgFound n);
        _ ← print (MsgSettings max_width jpeg_quality png_optimize);
        _ ← print (MsgRule "-" 60);
        counters ← for_each image_files
                     (process_file directory output_dir max_width jpeg_quality png_optimize)
                     (0, 0, 0);
        summary n counters
    end.

(** The namespace that [parser.parse_args()] gives. *)
Record Args : Type := mkArgs {
  args_dir : string;
  args_output : option string;
  args_max_width : Z;
  args_quality : Z;
  args_no_png_optimize : bool
}.

(** [main], lines 165-178, from the parsed arguments on. *)
Definition main (args : Args) : M unit :=
  _ ← (if negb ((1 <=? args_quality args) && (args_quality args <=? 100))
       then _ ← print MsgBadQuality; sys_exit 1
       else mret tt);
  optimize_directory (args_dir args) (args_output args) (args_max_width args)
    (args_quality args) (negb (args_no_png_optimize args)).

End Script.

(** ** A small Pillow and a small world, to run the script on

    A picture file of this codec starts with six bytes: the mode, the
    two dimensions on sixteen bits each, and the format it was saved in;
    the bytes after them are not read.  [save] writes the six bytes.
    Resizing to an empty size is refused, as Pillow does. *)

Module Sample.

Open Scope string_scope.
Open Scope Z_scope.

Definition byte_of (z : Z) : Byte.byte :=
  match Byte.of_N (Z.to_N (z mod 256)) with
  | Some b => b
  | None => Byte.x00
  end.

Definition Z_of (b : Byte.byte) : Z := Z.of_N (Byte.to_N b).

Definition modes : list string := ["RGB"; "RGBA"; "P"; "LA"; "L"; "CMYK"].

Definition tag_of_mode (m : string) : Z :=
  match list_find (String.eqb m) modes with
  | Some (i, _) => Z.of_nat i
  | None => 255
  end.

Definition mode_of_tag (b : Byte.byte) : option string :=
  modes !! Z.to_nat (Z_of b).

Definition format_of_tag (b : Byte.byte) : option string :=
  if Z_of b =? 80 then Some "PNG"
  else if Z_of b =? 74 then Some "JPEG"
  else Some "BMP".

Definition picture (m : string) (w h : Z) (fmt : Z) : list Byte.byte :=
  [byte_of (tag_of_mode m);
   byte_of (w / 256); byte_of w; byte_of (h / 256); byte_of h;
   byte_of fmt].

Definition decode (data : list Byte.byte) : result Image :=
  match data with
  | t :: w1 :: w0 :: h1 :: h0 :: f :: _ =>
      match mode_of_tag t with
      | Some m =>
          Ok (mkImage m (Z_of w1 * 256 + Z_of w0, Z_of h1 * 256 + Z_of h0)
                      (format_of_tag f) (Raster data))
      | None => Err UnidentifiedImageError
      end
  | _ => Err UnidentifiedImageError
  end.

Definition encode (fs : gmap string (list Byte.byte)) (path fmt : string)
    (opts : SaveOpts) (img : Image) : result (list Byte.byte) :=
  if (width img <? 65536) && (height img <? 65536)
  then Ok (picture (mode img) (width img) (height img)
                   (if String.eqb fmt "PNG" then 80 else 74))
  else Err ValueError.

Definition refuses (op : PilOp) : option exn :=
  match op with
  | OpResize _ (w, h) _ => if (w <? 1) || (h <? 1) then Some ValueError else None
  | _ => None
  end.

Definition pillow : Pillow := mkPillow decode encode refuses.

(** A directory with a wide RGBA picture, a small bitmap, a file that
    is no picture, a text file and a subdirectory. *)
Definition imgs : World :=
  mkWorld
    (list_to_map
       [("imgs/wide.png", (picture "RGBA" 1392 145 80 ++ replicate 10 Byte.x00)%list);
        ("imgs/icon.bmp", (picture "RGB" 400 300 66 ++ replicate 2 Byte.x00)%list);
        ("imgs/broken.jpg", [byte_of 255; byte_of 216]);
        ("imgs/notes.txt", [byte_of 104; byte_of 105])])
    (list_to_map
       [("imgs", ["wide.png"; "icon.bmp"; "broken.jpg"; "notes.txt"; "old"]);
        ("imgs/old", [])])
    [].

(** The wide picture as Pillow decodes it, and the bitmap. *)
Definition wide : Image :=
  mkImage "RGBA" (1392, 145) (Some "PNG")
          (Raster (picture "RGBA" 1392 145 80 ++ replicate 10 Byte.x00)%list).

Definition icon : Image :=
  mkImage "RGB" (400, 300) (Some "BMP")
          (Raster (picture "RGB" 400 300 66 ++ replicate 2 Byte.x00)%list).

(** [optimize_image("imgs/wide.png", max_width=1200)], in place. *)
Definition wide_run : outcome (bool * Z * Z) * World :=
  optimize_image pillow "imgs/wide.png" None 1200 85 true imgs.

(** [optimize_image("imgs/icon.bmp", max_width=1200)], in place. *)
Definition icon_run : outcome (bool * Z * Z) * World :=
  optimize_image pillow "imgs/icon.bmp" None 1200 85 true imgs.

End Sample.

(** * Vocabulary of the properties *)

Section Vocabulary.

Variable P : Pillow.

Import PyStr.
Open Scope string_scope.
Open Scope Z_scope.

(** [w'] has the files and the directories of [w], maybe with other
    bytes, and maybe more. *)
Definition extends (w w' : World) : Prop :=
  (forall p, is_Some (files w !! p) -> is_Some (files w' !! p)) /\
  (forall p, is_Some (dirs w !! p) -> is_Some (dirs w' !! p)).

(** A computation that removes nothing and never leaves through
    [sys.exit]. *)
Definition tame {A : Type} (m : M A) : Prop :=
  forall w r w', m w = (r, w') ->
    extends w w' /\ forall code, r <> Raise (SystemExit code).

(** What [convert_to_rgb] gives when no call is refused. *)
Definition flattened (img : Image) : Image :=
  if String.eqb (mode img) "RGBA" then
    mkImage "RGB" (size img) None
            (Paste (Fill (255, 255, 255)) (pixels img) (Band 3 (pixels img)))
  else if String.eqb (mode img) "RGB" then img
  else mkImage "RGB" (size img) None (Convert "RGB" (pixels img)).

(** The number line 77 computes. *)
Definition ratio_of (new_size original_size : Z) : PyNum.num :=
  if 0 <? original_size
  then PyNum.Float (PrimFloat.mul (PrimFloat.sub 1 (PyNum.fdiv_int new_size original_size)) 100)
  else PyNum.Int 0.

(** The path [optimize_image] works with before it looks at the
    extension: lines 56-57. *)
Definition chosen (input_path : string) (output_path : option string) : string :=
  match output_path with
  | None => input_path
  | Some p => p
  end.

(** [input_path] is a file of [w] that Pillow decodes as [img]. *)
Definition opened (w : World) (input_path : string) (img : Image) : Prop :=
  exists data, files w !! input_path = Some data /\ pil_decode P data = Ok img.

(** Between [w] and [w'] one file was written, and it holds what [save]
    made of the picture [fit]. *)
Definition saved_picture (w w' : World) (fit : Image) : Prop :=
  exists target fmt opts written,
    pil_encode P (files w) target fmt opts fit = Ok written /\
    files w' = <[target := written]> (files w).

(** The test of lines 111-112 on one name of the listing. *)
Definition is_image_file (w : World) (directory f : string) : bool :=
  bool_decide (is_Some (files w !! join directory f))
  && endswith_any (lower f) supported_formats.

(** The results of [optimize_image] on the files of the batch, in the
    order of the listing. *)
Fixpoint attempts (directory : string) (output_dir : option string)
    (max_width q : Z) (po : bool) (image_files : list string) : M (list (bool * Z * Z)) :=
  match image_files with
  | [] => mret []
  | f :: rest =>
      r ← attempt P directory output_dir max_width q po f;
      rs ← attempts directory output_dir max_width q po rest;
      mret (r :: rs)
  end.

(** The results that are successes, and the three numbers of the
    summary: how many there are, and their original and new sizes
    added up. *)
Definition successes (rs : list (bool * Z * Z)) : list (bool * Z * Z) :=
  List.filter (fun r => fst (fst r)) rs.

Definition total (sizes : list Z) : Z := fold_right Z.add 0 sizes.

Definition tally (rs : list (bool * Z * Z)) : Z * Z * Z :=
  (Z.of_nat (length (successes rs)),
   total (map (fun r => snd (fst r)) (successes rs)),
   total (map snd (successes rs))).

(** [os.makedirs] does not raise on the output directory in [w], when
    an output directory is given. *)
Definition creatable (w : World) (output_dir : option string) : Prop :=
  match given output_dir with
  | Some d => exists w1, os.makedirs d w = (Ret tt, w1)
  | None => True
  end.

(** The output path that the loop hands to [optimize_image] for the
    file [f]: lines 133-137. *)
Definition output_for (output_dir : option string) (f : string) : option string :=
  match given output_dir with
  | Some d => Some (join d f)
  | None => None
  end.

(** [w0] is the world in which the loop, coming from [w], calls
    [optimize_image] on the file [f]: the file is announced, no file is
    touched, and the output directory is there when one is given. *)
Definition entered (output_dir : option string) (f : string) (w w0 : World) : Prop :=
  console w0 = (console w ++ [MsgProcessing f])%list /\
  files w0 = files w /\
  (forall p, is_Some (dirs w !! p) -> is_Some (dirs w0 !! p)) /\
  match given output_dir with
  | Some d => is_Some (dirs w0 !! d)
  | None => dirs w0 = dirs w
  end.


(** The lines of the summary, lines 145-152, for [n] files and the
    three counters. *)
Definition closing_lines (n : Z) (counters : Z * Z * Z) : list Msg :=
  let '(s, a, b) := counters in
  [MsgRule "=" 60; MsgFinished; MsgSucceeded s n] ++
  (if 0 <? s then
     [MsgTotalSize (PrimFloat.div (PyNum.fdiv_int a 1024) (PyNum.float_of_int 1024))
                   (PrimFloat.div (PyNum.fdiv_int b 1024) (PyNum.float_of_int 1024));
      MsgSaved (PrimFloat.div (PyNum.fdiv_int (a - b) 1024) (PyNum.float_of_int 1024))
               (ratio_of b a)]
   else [])%list.

(** The three lines that open a batch. *)
Definition opening_lines (n max_width q : Z) (po : bool) : list Msg :=
  [MsgFound n; MsgSettings max_width q po; MsgRule "-" 60].

End Vocabulary.

(** C1 as the specification words it: the height saved is
    [floor(height * max_width / width)]. *)
Definition floor_height_claim : Prop :=
  forall (P : Pillow) (input_path : string) (output_path : option string)
         (max_width q : Z) (po : bool) (o n : Z) (w w' : World) (img : Image),
    optimize_image P input_path output_path max_width q po w = (Ret (true, o, n), w') ->
    opened P w input_path img ->
    max_width < width img ->
    exists fit,
      saved_picture P w w' fit /\
      width fit = max_width /\
      height fit = height img * max_width / width img.


(** ** Lines of the console, by kind *)

(** The line that ends the report of a success. *)
Definition is_done (m : Msg) : bool :=
  match m with
  | MsgDone _ => true
  | _ => false
  end.

(** The line of a failure. *)
Definition is_failed (m : Msg) : bool :=
  match m with
  | MsgFailed _ => true
  | _ => false
  end.

(** The file a line announces, for the line that opens each turn of the
    loop. *)
Definition processed (m : Msg) : option string :=
  match m with
  | MsgProcessing f => Some f
  | _ => None
  end.

(** How many lines are of a kind. *)
Definition count (kind : Msg -> bool) (lines : list Msg) : nat :=
  length (List.filter kind lines).

(** No line, or the one line that tells of a resize. *)
Definition resize_notice (lines : list Msg) : Prop :=
  lines = [] \/ exists w h ow oh, lines = [MsgResized w h ow oh].

(** The path that lines 60-72 make of the path to write. *)
Definition target_of (p : string) : string :=
  if PyStr.endswith (PyStr.lower p) ".png" then p
  else if PyStr.endswith_any (PyStr.lower p) [".jpg"; ".jpeg"]%string then p
  else (fst (PyStr.splitext p) +:+ ".jpg")%string.

(** The path that the batch writes for the file [f] of [directory]. *)
Definition out_path (directory : string) (output_dir : option string) (f : string) : string :=
  target_of match given output_dir with
            | Some d => PyStr.join d f
            | None => PyStr.join directory f
            end.

(** * Properties *)

(** ** The monad *)

Lemma bind_eq {A B : Type} (m : M A) (k : A -> M B) (w : World) :
  (x ← m; k x) w =
  match m w with
  | (Ret a, w') => k a w'
  | (Raise r, w') => (Raise r, w')
  end.
Proof. reflexivity. Qed.

Lemma bind_mret {A B : Type} (a : A) (k : A -> M B) (w : World) :
  (x ← mret a; k x) w = k a w.
Proof. reflexivity. Qed.

Lemma bind_assoc {A B C : Type} (m : M A) (f : A -> M B) (k : B -> M C) (w : World) :
  (y ← (x ← m; f x); k y) w = (x ← m; y ← f x; k y) w.
Proof. rewrite !bind_eq. destruct (m w) as [[a | r] w1]; reflexivity. Qed.

Lemma bind_print {B : Type} (m : Msg) (k : unit -> M B) (w : World) :
  (x ← print m; k x) w = k tt (say w [m]).
Proof. reflexivity. Qed.

Lemma bind_lift {A B : Type} (r : result A) (k : A -> M B) (w : World) :
  (x ← lift r; k x) w =
  match r with
  | Ok a => k a w
  | Err e => (Raise (Exception e), w)
  end.
Proof. destruct r; reflexivity. Qed.

Lemma bind_Ret {A B : Type} (m : M A) (k : A -> M B) (w w' : World) (b : B) :
  (x ← m; k x) w = (Ret b, w') ->
  exists a w1, m w = (Ret a, w1) /\ k a w1 = (Ret b, w').
Proof.
  rewrite bind_eq. destruct (m w) as [[a | r] w1]; intros H.
  - exists a, w1. split; [reflexivity | exact H].
  - discriminate H.
Qed.

Lemma lift_Ret {A : Type} (r : result A) (w w' : World) (a : A) :
  lift r w = (Ret a, w') -> r = Ok a /\ w' = w.
Proof.
  destruct r as [a0 | e]; cbn; intros H; inversion H; subst; auto.
Qed.

Lemma say_say (w : World) (l1 l2 : list Msg) :
  say (say w l1) l2 = say w (l1 ++ l2).
Proof. unfold say. cbn. rewrite <- app_assoc. reflexivity. Qed.

Lemma say_nil (w : World) : say w [] = w.
Proof. destruct w. unfold say. cbn. rewrite app_nil_r. reflexivity. Qed.

(** Takes a successful run of a sequence apart, one call at a time. *)
Ltac split_bind H :=
  let a := fresh "a" in
  let w1 := fresh "w" in
  let Hm := fresh "Hm" in
  apply bind_Ret in H; destruct H as (a & w1 & Hm & H).

(** ** Computations that only add to the world *)

Lemma extends_refl (w : World) : extends w w.
Proof. split; auto. Qed.

Lemma extends_trans (w1 w2 w3 : World) :
  extends w1 w2 -> extends w2 w3 -> extends w1 w3.
Proof. intros [Hf1 Hd1] [Hf2 Hd2]. split; auto. Qed.

Lemma extends_say (w : World) (lines : list Msg) : extends w (say w lines).
Proof. split; auto. Qed.

Lemma extends_write (w : World) (path : string) (data : list Byte.byte) :
  extends w (write w path data).
Proof.
  split; [| auto]. intros p Hp. cbn. rewrite lookup_insert.
  destruct (decide (path = p)); [eauto | exact Hp].
Qed.

Lemma tame_mret {A : Type} (a : A) : tame (mret a).
Proof.
  intros w r w' H. inversion H; subst. split; [apply extends_refl | discriminate].
Qed.

Lemma tame_raise {A : Type} (e : exn) : tame (@raise A e).
Proof.
  intros w r w' H. inversion H; subst. split; [apply extends_refl | discriminate].
Qed.

Lemma tame_lift {A : Type} (x : result A) : tame (lift x).
Proof. destruct x; [apply tame_mret | apply tame_raise]. Qed.

Lemma tame_print (m : Msg) : tame (print m).
Proof.
  intros w r w' H. inversion H; subst. split; [apply extends_say | discriminate].
Qed.

Lemma tame_bind {A B : Type} (m : M A) (k : A -> M B) :
  tame m -> (forall a, tame (k a)) -> tame (x ← m; k x).
Proof.
  intros Hm Hk w r w' H. rewrite bind_eq in H.
  destruct (m w) as [[a | x] w1] eqn:E; destruct (Hm _ _ _ E) as [Hext Hexit].
  - destruct (Hk a _ _ _ H) as [Hext' Hexit'].
    split; [eapply extends_trans; eauto | exact Hexit'].
  - inversion H; subst. split; [exact Hext |].
    intros code Hx. apply (Hexit code). inversion Hx. reflexivity.
Qed.

Lemma tame_try_except {A : Type} (body : M A) (handler : exn -> M A) :
  tame body -> (forall e, tame (handler e)) -> tame (try_except body handler).
Proof.
  intros Hb Hh w r w' H. unfold try_except in H.
  destruct (body w) as [[a | [e | code]] w1] eqn:E; destruct (Hb _ _ _ E) as [Hext Hexit].
  - inversion H; subst. split; [exact Hext | discriminate].
  - destruct (Hh e _ _ _ H) as [Hext' Hexit'].
    split; [eapply extends_trans; eauto | exact Hexit'].
  - exfalso. apply (Hexit code). reflexivity.
Qed.

Lemma tame_getsize (p : string) : tame (os.path_getsize p).
Proof.
  intros w r w'. unfold os.path_getsize.
  destruct (files w !! p); [| destruct (dirs w !! p)];
    intros H; inversion H; subst; (split; [apply extends_refl | discriminate]).
Qed.

Lemma with_dir_keeps (d p : string) (ds : gmap string (list string)) :
  is_Some (ds !! p) -> is_Some (with_dir d ds !! p).
Proof.
  intros Hp. unfold with_dir. destruct (ds !! d) eqn:Ed; [exact Hp |].
  rewrite lookup_insert. destruct (decide (d = p)); [eauto | exact Hp].
Qed.

Lemma with_dir_has (d : string) (ds : gmap string (list string)) :
  is_Some (with_dir d ds !! d).
Proof.
  unfold with_dir. destruct (ds !! d) eqn:Ed; [rewrite Ed; eauto |].
  rewrite lookup_insert_eq. eauto.
Qed.

Lemma with_dirs_keep (l : list string) (p : string) (ds : gmap string (list string)) :
  is_Some (ds !! p) -> is_Some (foldr with_dir ds l !! p).
Proof.
  intros Hp. induction l as [| d l IH]; [exact Hp |]. cbn. apply with_dir_keeps. exact IH.
Qed.

(** What a call of [os.makedirs] that returns has done. *)
Lemma makedirs_Ret (d : string) (u : unit) (w w' : World) :
  os.makedirs d w = (Ret u, w') ->
  files w' = files w /\ console w' = console w /\
  is_Some (dirs w' !! d) /\
  forall p, is_Some (dirs w !! p) -> is_Some (dirs w' !! p).
Proof.
  unfold os.makedirs. destruct (dirs w !! d) eqn:Ed.
  - intros H. inversion H; subst. rewrite Ed. repeat split; eauto.
  - destruct (files w !! d); [intros H; discriminate H |].
    destruct (String.eqb d ""); [intros H; discriminate H |].
    destruct (bool_decide _); [intros H; discriminate H |].
    destruct (existsb _ _); [intros H; discriminate H |].
    intros H. inversion H; subst. cbn [files dirs console].
    repeat split.
    + apply with_dir_has.
    + intros p Hp. apply (with_dirs_keep (d :: ancestors d)). exact Hp.
Qed.



Lemma tame_makedirs (p : string) : tame (os.makedirs p).
Proof.
  intros w r w' H. destruct r as [u | x].
  - apply makedirs_Ret in H. destruct H as (Hf & _ & _ & Hd).
    split; [| discriminate]. split; [rewrite Hf; auto | exact Hd].
  - revert H. unfold os.makedirs.
    destruct (dirs w !! p); [intros H; discriminate H |].
    destruct (files w !! p);
      [intros H; inversion H; subst; split; [apply extends_refl | discriminate] |].
    destruct (String.eqb p "");
      [intros H; inversion H; subst; split; [apply extends_refl | discriminate] |].
    destruct (bool_decide _);
      [intros H; inversion H; subst; split; [apply extends_refl | discriminate] |].
    destruct (existsb _ _); intros H; inversion H; subst.
    split; [apply extends_refl | discriminate].
Qed.

(** Leaves one goal for each call of a sequence. *)
Ltac tame_steps :=
  repeat first
    [ apply tame_mret
    | apply tame_raise
    | apply tame_lift
    | apply tame_print
    | apply tame_getsize
    | apply tame_makedirs
    | apply tame_bind; [| intros ?]
    | match goal with
      | |- tame (let '(_, _) := ?p in _) => destruct p
      | |- tame (match ?x with _ => _ end) => destruct x
      end ].

Section Facts.

Variable P : Pillow.

Import PyStr.
Open Scope string_scope.
Open Scope Z_scope.

(** ** Pillow's calls *)

Lemma bind_pil_call {B : Type} (op : PilOp) (r : Image) (k : Image -> M B) (w : World) :
  (x ← pil_call P op r; k x) w =
  match pil_refuses P op with
  | Some e => (Raise (Exception e), w)
  | None => k r w
  end.
Proof. unfold pil_call. destruct (pil_refuses P op); reflexivity. Qed.

Lemma Image_open_Ret (path : string) (img : Image) (w w' : World) :
  Image_open P path w = (Ret img, w') ->
  exists data, files w !! path = Some data /\ pil_decode P data = Ok img /\ w' = w.
Proof.
  unfold Image_open. destruct (files w !! path) as [data |].
  - intros H. apply lift_Ret in H. destruct H. exists data. auto.
  - destruct (dirs w !! path); intros H; discriminate H.
Qed.

Lemma Image_save_Ret (img : Image) (path fmt : string) (opts : SaveOpts)
    (w w' : World) (u : unit) :
  Image_save P img path fmt opts w = (Ret u, w') ->
  exists data, pil_encode P (files w) path fmt opts img = Ok data /\ w' = write w path data.
Proof.
  unfold Image_save. destruct (pil_encode P (files w) path fmt opts img) as [data | e];
    intros H; inversion H. exists data. auto.
Qed.

Lemma getsize_file (path : string) (data : list Byte.byte) (w : World) :
  files w !! path = Some data ->
  os.path_getsize path w = (Ret (Z.of_nat (length data)), w).
Proof. intros H. unfold os.path_getsize. rewrite H. reflexivity. Qed.

(** ** Flattening to RGB *)

Lemma convert_to_rgb_cases (img : Image) (w : World) :
  (convert_to_rgb P img w = (Ret (flattened img), w)) \/
  (exists op e, pil_refuses P op = Some e /\
                convert_to_rgb P img w = (Raise (Exception e), w)).
Proof.
  unfold convert_to_rgb, flattened. cbn [existsb].
  destruct (String.eqb (mode img) "RGBA") eqn:Ergba; cbn [orb].
  - (* RGBA: new, split, [3], paste *)
    apply String.eqb_eq in Ergba.
    unfold Image_new, Image_split, Image_paste.
    rewrite bind_pil_call.
    destruct (pil_refuses P (OpNew "RGB" (size img) (255, 255, 255))) as [e |] eqn:Enew.
    { right. eexists _, e. split; [exact Enew | reflexivity]. }
    rewrite bind_assoc, bind_pil_call.
    destruct (pil_refuses P (OpSplit img)) as [e |] eqn:Esplit.
    { right. eexists _, e. split; [exact Esplit | reflexivity]. }
    rewrite bind_mret, Ergba. cbn. rewrite bind_mret. cbn.
    unfold pil_call.
    match goal with |- context [pil_refuses P ?op] =>
      destruct (pil_refuses P op) as [e |] eqn:Epaste end.
    { right. eexists _, e. split; [exact Epaste | reflexivity]. }
    left. reflexivity.
  - destruct (String.eqb (mode img) "RGB") eqn:Ergb.
    + apply String.eqb_eq in Ergb. rewrite Ergb. cbn. left. reflexivity.
    + assert (Hconv :
        Image_convert P img "RGB" w
        = (Ret (mkImage "RGB" (size img) None (Convert "RGB" (pixels img))), w) \/
        exists op e, pil_refuses P op = Some e /\
                     Image_convert P img "RGB" w = (Raise (Exception e), w)).
      { unfold Image_convert, pil_call.
        destruct (pil_refuses P (OpConvert img "RGB")) as [e |] eqn:Econv.
        - right. eexists _, e. split; [exact Econv | reflexivity].
        - left. reflexivity. }
      cbn [negb].
      destruct (String.eqb (mode img) "LA" || (String.eqb (mode img) "P" || false));
        exact Hconv.
Qed.

Lemma convert_to_rgb_Ret (img rgb : Image) (w w' : World) :
  convert_to_rgb P img w = (Ret rgb, w') -> rgb = flattened img /\ w' = w.
Proof.
  intros H. destruct (convert_to_rgb_cases img w) as [Hok | (op & e & _ & Hbad)].
  - rewrite Hok in H. inversion H. auto.
  - rewrite Hbad in H. discriminate H.
Qed.

Lemma flattened_mode (img : Image) : mode (flattened img) = "RGB".
Proof.
  unfold flattened. destruct (String.eqb (mode img) "RGBA"); [reflexivity |].
  destruct (String.eqb (mode img) "RGB") eqn:E; [| reflexivity].
  apply String.eqb_eq in E. exact E.
Qed.

Lemma flattened_size (img : Image) : size (flattened img) = size img.
Proof.
  unfold flattened. destruct (String.eqb (mode img) "RGBA"); [reflexivity |].
  destruct (String.eqb (mode img) "RGB"); reflexivity.
Qed.

(** ** The three steps of [optimize_image] *)

Lemma path_getsize_Ret (path : string) (n : Z) (w w' : World) :
  os.path_getsize path w = (Ret n, w') ->
  w' = w /\ forall data, files w !! path = Some data -> n = Z.of_nat (length data).
Proof.
  unfold os.path_getsize. destruct (files w !! path) as [data |].
  - intros H. inversion H. split; [reflexivity |]. intros d Hd. inversion Hd. reflexivity.
  - destruct (dirs w !! path); intros H; inversion H. split; [reflexivity |].
    intros d Hd. discriminate Hd.
Qed.

Lemma bind_getsize_file {B : Type} (path : string) (data : list Byte.byte)
    (k : Z -> M B) (w : World) :
  files w !! path = Some data ->
  (n ← os.path_getsize path; k n) w = k (Z.of_nat (length data)) w.
Proof. intros H. rewrite bind_eq, (getsize_file path data w H). reflexivity. Qed.

Lemma truediv_1024 (a : Z) : PyNum.truediv a 1024 = Ok (PyNum.fdiv_int a 1024).
Proof. reflexivity. Qed.

Lemma resize_Ret (img fit : Image) (max_width ow oh : Z) (w w' : World) :
  resize_to_max_width P img max_width ow oh w = (Ret fit, w') ->
  (max_width < width img /\
   exists ratio new_height,
     PyNum.truediv max_width (width img) = Ok ratio /\
     scaled_height (height img) ratio = Ok new_height /\
     fit = mkImage (mode img) (max_width, new_height) None
                   (Resample LANCZOS (max_width, new_height) (pixels img)) /\
     w' = say w [MsgResized max_width new_height ow oh]) \/
  (width img <= max_width /\ fit = img /\ w' = w).
Proof.
  unfold resize_to_max_width. destruct (Z.ltb_spec max_width (width img)) as [Hlt | Hge].
  - intros H. left. split; [exact Hlt |].
    rewrite bind_lift in H.
    destruct (PyNum.truediv max_width (width img)) as [ratio | e] eqn:Hratio;
      [| discriminate H].
    rewrite bind_lift in H.
    destruct (scaled_height (height img) ratio) as [new_height | e] eqn:Hnew;
      [| discriminate H].
    unfold Image_resize in H. rewrite bind_pil_call in H.
    destruct (pil_refuses P _); [discriminate H |].
    rewrite bind_print in H. inversion H.
    exists ratio, new_height. repeat split; auto.
  - intros H. right. inversion H; subst. auto.
Qed.

Lemma save_image_Ret (img : Image) (p target fmt : string) (q : Z) (po : bool)
    (w w' : World) :
  save_image P img p q po w = (Ret (target, fmt), w') ->
  exists opts data,
    pil_encode P (files w) target fmt opts img = Ok data /\
    w' = write w target data /\
    if endswith (lower p) ".png"
    then target = p /\ fmt = "PNG" /\
         opts = (if po then mkSaveOpts None (Some true) (Some 9)
                 else mkSaveOpts None None None)
    else target = (if endswith_any (lower p) [".jpg"; ".jpeg"] then p
                   else fst (splitext p) +:+ ".jpg") /\
         fmt = "JPEG" /\
         opts = mkSaveOpts (Some q) (Some true) None.
Proof.
  unfold save_image. destruct (endswith (lower p) ".png").
  - intros H. split_bind H. cbn in H. inversion H; subst.
    destruct po; apply Image_save_Ret in Hm; destruct Hm as (data & Henc & Hw);
      eexists _, data; repeat split; eauto.
  - destruct (endswith_any (lower p) [".jpg"; ".jpeg"]); cbn [negb];
      intros H; split_bind H; inversion H; subst;
      apply Image_save_Ret in Hm; destruct Hm as (data & Henc & Hw);
      exists (jpeg_opts q), data; repeat split; auto.
Qed.

Lemma compression_eq (new_size original_size : Z) (w : World) :
  compression new_size original_size w = (Ret (ratio_of new_size original_size), w).
Proof.
  unfold compression, ratio_of. destruct (Z.ltb_spec 0 original_size) as [Hpos | Hle].
  - unfold PyNum.truediv.
    destruct (Z.eqb_spec original_size 0) as [E | _]; [lia | reflexivity].
  - reflexivity.
Qed.

(** A successful call, step by step. *)
Lemma optimize_image_success (input_path : string) (output_path : option string)
    (max_width q : Z) (po : bool) (o n : Z) (w w' : World) :
  optimize_image P input_path output_path max_width q po w = (Ret (true, o, n), w') ->
  exists data img fit target fmt written lines,
    files w !! input_path = Some data /\
    pil_decode P data = Ok img /\
    o = Z.of_nat (length data) /\
    resize_to_max_width P (flattened img) max_width (width img) (height img) w
      = (Ret fit, say w lines) /\
    save_image P fit (chosen input_path output_path) q po (say w lines)
      = (Ret (target, fmt), write (say w lines) target written) /\
    n = Z.of_nat (length written) /\
    w' = say (write w target written)
             (lines ++ [MsgDone (basename target); MsgFormat fmt;
                        MsgOriginalKB (PyNum.fdiv_int o 1024);
                        MsgNewKB (PyNum.fdiv_int n 1024);
                        MsgRatio (ratio_of n o)]).
Proof.
  unfold optimize_image, try_except. intros H.
  destruct (optimize_image_body P input_path output_path max_width q po w)
    as [[r | [e | c]] w1] eqn:Hbody; [| discriminate H | discriminate H].
  inversion H; subst; clear H. rename Hbody into H.
  unfold optimize_image_body in H.
  split_bind H. rename a into osz. apply path_getsize_Ret in Hm. destruct Hm as [-> Hsz].
  split_bind H. rename a into first. apply Image_open_Ret in Hm.
  destruct Hm as (data & Hfile & Hdec & ->).
  destruct (size first) as [ow oh] eqn:Hsize.
  split_bind H. rename a into img. apply Image_open_Ret in Hm.
  destruct Hm as (data' & Hfile' & Hdec' & ->).
  rewrite Hfile in Hfile'. inversion Hfile'; subst data'. clear Hfile'.
  rewrite Hdec in Hdec'. inversion Hdec'; subst img. clear Hdec'.
  split_bind H. rename a into rgb. apply convert_to_rgb_Ret in Hm. destruct Hm as [-> ->].
  split_bind H. rename a into fit.
  split_bind H. destruct a as [target fmt].
  assert (Hw0 : exists lines, w0 = say w lines).
  { apply resize_Ret in Hm. destruct Hm as [(_ & r & h & _ & _ & _ & ->) | (_ & _ & ->)].
    - eexists. reflexivity.
    - exists []. symmetry. apply say_nil. }
  destruct Hw0 as (lines & ->).
  pose proof Hm0 as Hsave. apply save_image_Ret in Hsave.
  destruct Hsave as (opts & written & _ & -> & _).
  rewrite (bind_getsize_file target written) in H by apply lookup_insert_eq.
  rewrite bind_eq, compression_eq in H.
  rewrite !bind_print, (truediv_1024 osz), bind_lift, bind_print in H.
  rewrite truediv_1024, bind_lift, !bind_print in H.
  cbn [mret M_ret] in H. inversion H; subst; clear H.
  exists data, first, fit, target, fmt, written, lines.
  unfold width, height. rewrite Hsize. cbn [fst snd].
  repeat split; auto.
  unfold say, write. cbn. rewrite <- !app_assoc. reflexivity.
Qed.

(** ** What a successful call wrote *)

Lemma success_opened (input_path : string) (output_path : option string)
    (max_width q : Z) (po : bool) (o n : Z) (w w' : World) :
  optimize_image P input_path output_path max_width q po w = (Ret (true, o, n), w') ->
  exists img, opened P w input_path img.
Proof.
  intros H. apply optimize_image_success in H.
  destruct H as (data & img & _ & _ & _ & _ & _ & Hfile & Hdec & _).
  exists img, data. auto.
Qed.

Lemma opened_unique (w : World) (input_path : string) (img1 img2 : Image) :
  opened P w input_path img1 -> opened P w input_path img2 -> img1 = img2.
Proof.
  intros (d1 & Hf1 & Hd1) (d2 & Hf2 & Hd2).
  rewrite Hf1 in Hf2. inversion Hf2; subst. rewrite Hd1 in Hd2. inversion Hd2. reflexivity.
Qed.

(** The picture that reaches [save]: the input flattened, and resized
    or not according to its width. *)
Lemma success_saved (input_path : string) (output_path : option string)
    (max_width q : Z) (po : bool) (o n : Z) (w w' : World) (img : Image) :
  optimize_image P input_path output_path max_width q po w = (Ret (true, o, n), w') ->
  opened P w input_path img ->
  exists fit lines,
    resize_to_max_width P (flattened img) max_width (width img) (height img) w
      = (Ret fit, say w lines) /\
    saved_picture P w w' fit.
Proof.
  intros H Hopen. apply optimize_image_success in H.
  destruct H as (data & img' & fit & target & fmt & written & lines
                 & Hfile & Hdec & _ & Hfit & Hsave & _ & ->).
  assert (img' = img) as -> by (eapply opened_unique; [exists data; eauto | exact Hopen]).
  exists fit, lines. split; [exact Hfit |].
  apply save_image_Ret in Hsave. destruct Hsave as (opts & data' & Henc & Hw & _).
  exists target, fmt, opts, written.
  assert (data' = written) as ->.
  { apply (f_equal (fun x => files x !! target)) in Hw. cbn in Hw.
    rewrite !lookup_insert_eq in Hw. inversion Hw. reflexivity. }
  split; [exact Henc | reflexivity].
Qed.

Lemma flattened_width (img : Image) : width (flattened img) = width img.
Proof. unfold width. rewrite flattened_size. reflexivity. Qed.

Lemma flattened_height (img : Image) : height (flattened img) = height img.
Proof. unfold height. rewrite flattened_size. reflexivity. Qed.

(** C1, as the code has it.  When the decoded picture is wider than
    [max_width], a successful [optimize_image] saves a picture whose
    width is [max_width] and whose height is
    [int(height * (max_width / width))], the quotient and the product
    being taken in binary64 arithmetic; its pixels are the flattened
    picture resampled to that size with the Lanczos filter. *)
Theorem resize_when_wider (input_path : string) (output_path : option string)
    (max_width q : Z) (po : bool) (o n : Z) (w w' : World) (img : Image) :
  optimize_image P input_path output_path max_width q po w = (Ret (true, o, n), w') ->
  opened P w input_path img ->
  max_width < width img ->
  exists fit ratio,
    saved_picture P w w' fit /\
    width fit = max_width /\
    PyNum.truediv max_width (width img) = Ok ratio /\
    scaled_height (height img) ratio = Ok (height fit) /\
    pixels fit = Resample LANCZOS (size fit) (pixels (flattened img)).
Proof.
  intros H Hopen Hwide.
  destruct (success_saved _ _ _ _ _ _ _ _ _ _ H Hopen) as (fit & lines & Hfit & Hsaved).
  apply resize_Ret in Hfit. rewrite flattened_width, flattened_height in Hfit.
  destruct Hfit as [(_ & ratio & nh & Hratio & Hnh & -> & _) | (Hle & _)]; [| lia].
  eexists. exists ratio. split; [exact Hsaved |]. repeat split; auto.
Qed.

(** C2.  When the decoded picture is not wider than [max_width], a
    successful [optimize_image] saves a picture of the same width and
    height, whatever the height is. *)
Theorem no_resize_when_narrow (input_path : string) (output_path : option string)
    (max_width q : Z) (po : bool) (o n : Z) (w w' : World) (img : Image) :
  optimize_image P input_path output_path max_width q po w = (Ret (true, o, n), w') ->
  opened P w input_path img ->
  width img <= max_width ->
  exists fit,
    saved_picture P w w' fit /\
    size fit = size img /\
    pixels fit = pixels (flattened img).
Proof.
  intros H Hopen Hnarrow.
  destruct (success_saved _ _ _ _ _ _ _ _ _ _ H Hopen) as (fit & lines & Hfit & Hsaved).
  apply resize_Ret in Hfit. rewrite flattened_width in Hfit.
  destruct Hfit as [(Hlt & _) | (_ & -> & _)]; [lia |].
  exists (flattened img). repeat split; auto. apply flattened_size.
Qed.

(** C3.  [convert_to_rgb] leaves the world alone and, unless Pillow
    refuses a call, gives a picture of mode RGB and of the same size:
    an RGBA picture pasted on a white picture through its own alpha
    band (band 3), a P or LA picture converted to RGB with no pasting,
    any other picture that is not RGB converted to RGB, an RGB picture
    as it is. *)
Theorem flatten_modes (img : Image) (w : World) :
  match convert_to_rgb P img w with
  | (Ret rgb, w') =>
      w' = w /\ mode rgb = "RGB" /\ size rgb = size img /\
      (mode img = "RGBA" ->
       pixels rgb = Paste (Fill (255, 255, 255)) (pixels img) (Band 3 (pixels img))) /\
      (mode img = "P" \/ mode img = "LA" ->
       pixels rgb = Convert "RGB" (pixels img)) /\
      (mode img <> "RGBA" -> mode img <> "RGB" ->
       pixels rgb = Convert "RGB" (pixels img)) /\
      (mode img = "RGB" -> rgb = img)
  | (Raise r, w') =>
      w' = w /\ exists op e, pil_refuses P op = Some e /\ r = Exception e
  end.
Proof.
  destruct (convert_to_rgb_cases img w) as [-> | (op & e & Hop & ->)].
  - split; [reflexivity |]. split; [apply flattened_mode |].
    split; [apply flattened_size |]. unfold flattened.
    repeat split.
    + intros ->. reflexivity.
    + intros [-> | ->]; reflexivity.
    + intros Hrgba Hrgb.
      apply String.eqb_neq in Hrgba. apply String.eqb_neq in Hrgb.
      rewrite Hrgba, Hrgb. reflexivity.
    + intros ->. reflexivity.
  - split; [reflexivity |]. exists op, e. auto.
Qed.

(** C4.  A successful [optimize_image] writes one file, chosen by the
    extension of the output path (the input path when none is given).
    A path ending in .png, in any case, is written as PNG, with
    [optimize=True, compress_level=9] when [png_optimize] holds and no
    option otherwise.  Any other path is written as JPEG with
    [quality=jpeg_quality, optimize=True], at the path itself when it
    ends in .jpg or .jpeg, and else at the path with its extension
    replaced by .jpg. *)
Theorem encoding_by_extension (input_path : string) (output_path : option string)
    (max_width q : Z) (po : bool) (o n : Z) (w w' : World) :
  optimize_image P input_path output_path max_width q po w = (Ret (true, o, n), w') ->
  exists fit target fmt opts written,
    pil_encode P (files w) target fmt opts fit = Ok written /\
    files w' = <[target := written]> (files w) /\
    In (MsgFormat fmt) (console w') /\
    let p := chosen input_path output_path in
    if endswith (lower p) ".png"
    then target = p /\ fmt = "PNG" /\
         opts = (if po then mkSaveOpts None (Some true) (Some 9)
                 else mkSaveOpts None None None)
    else target = (if endswith_any (lower p) [".jpg"; ".jpeg"] then p
                   else fst (splitext p) +:+ ".jpg") /\
         fmt = "JPEG" /\
         opts = mkSaveOpts (Some q) (Some true) None.
Proof.
  intros H. apply optimize_image_success in H.
  destruct H as (data & img & fit & target & fmt & written & lines
                 & _ & _ & _ & _ & Hsave & _ & ->).
  apply save_image_Ret in Hsave. destruct Hsave as (opts & data' & Henc & Hw & Hext).
  assert (data' = written) as ->.
  { apply (f_equal (fun x => files x !! target)) in Hw. cbn in Hw.
    rewrite !lookup_insert_eq in Hw. inversion Hw. reflexivity. }
  exists fit, target, fmt, opts, written.
  split; [exact Henc |]. split; [reflexivity |]. split; [| exact Hext].
  cbn. apply in_or_app. right. apply in_or_app. right. cbn. auto.
Qed.

(** C7.  After a successful [optimize_image] the last line printed is
    the compression ratio: [(1 - new_size / original_size) * 100] in
    binary64 arithmetic when the original size is positive, and the
    integer 0 when it is 0. *)
Theorem ratio_reported (input_path : string) (output_path : option string)
    (max_width q : Z) (po : bool) (o n : Z) (w w' : World) :
  optimize_image P input_path output_path max_width q po w = (Ret (true, o, n), w') ->
  0 <= o /\
  (0 < o ->
   exists quotient,
     PyNum.truediv n o = Ok quotient /\
     last (console w') =
       Some (MsgRatio (PyNum.Float (PrimFloat.mul (PrimFloat.sub 1 quotient) 100)))) /\
  (o = 0 -> last (console w') = Some (MsgRatio (PyNum.Int 0))).
Proof.
  intros H. apply optimize_image_success in H.
  destruct H as (data & img & fit & target & fmt & written & lines
                 & _ & _ & -> & _ & _ & _ & ->).
  assert (Hlast : forall r,
    last (console (say (write w target written)
       (lines ++ [MsgDone (basename target); MsgFormat fmt;
                  MsgOriginalKB (PyNum.fdiv_int (Z.of_nat (length data)) 1024);
                  MsgNewKB (PyNum.fdiv_int n 1024); MsgRatio r]))) = Some (MsgRatio r)).
  { intros r. cbn [say console]. rewrite !last_app. reflexivity. }
  split; [lia |]. split.
  - intros Hpos. exists (PyNum.fdiv_int n (Z.of_nat (length data))). split.
    + unfold PyNum.truediv. destruct (Z.eqb_spec (Z.of_nat (length data)) 0); [lia | reflexivity].
    + rewrite Hlast. unfold ratio_of.
      destruct (Z.ltb_spec 0 (Z.of_nat (length data))); [reflexivity | lia].
  - intros Hzero. rewrite Hlast. unfold ratio_of. rewrite Hzero. reflexivity.
Qed.

(** ** Extensions *)

Lemma lower_app (a b : string) : lower (a +:+ b) = lower a +:+ lower b.
Proof.
  induction a as [| c a IH]; [reflexivity |].
  change (lower (String c (a +:+ b)) = String (lower_char c) (lower a +:+ lower b)).
  cbn [lower]. rewrite IH. reflexivity.
Qed.

Lemma endswith_unfold (s suffix : string) :
  endswith s suffix =
  String.eqb s suffix ||
  match s with
  | EmptyString => false
  | String _ s' => endswith s' suffix
  end.
Proof. destruct s; reflexivity. Qed.

Lemma endswith_app (a b : string) : endswith (a +:+ b) b = true.
Proof.
  induction a as [| c a IH].
  - change (endswith b b = true). rewrite endswith_unfold, String.eqb_refl. reflexivity.
  - change (endswith (String c (a +:+ b)) b = true).
    rewrite endswith_unfold, IH. apply orb_true_r.
Qed.

Lemma jpg_target_ends_in_jpg (p : string) :
  endswith (lower (fst (splitext p) +:+ ".jpg")) ".jpg" = true.
Proof. rewrite lower_app. apply endswith_app. Qed.

(** C9.  In place (no output path), on an input whose name ends in
    none of .jpg, .jpeg, .png, a successful [optimize_image] writes the
    path of the input with its extension replaced by .jpg, which is
    another path; the input file keeps its bytes, and the new size
    returned is the size of the file written. *)
Theorem in_place_other_extension (input_path : string)
    (max_width q : Z) (po : bool) (o n : Z) (w w' : World) :
  optimize_image P input_path None max_width q po w = (Ret (true, o, n), w') ->
  endswith_any (lower input_path) [".jpg"; ".jpeg"; ".png"] = false ->
  let target := fst (splitext input_path) +:+ ".jpg" in
  target <> input_path /\
  files w' !! input_path = files w !! input_path /\
  exists written,
    files w' = <[target := written]> (files w) /\
    files w' !! target = Some written /\
    n = Z.of_nat (length written).
Proof.
  intros H Hext target.
  cbn [endswith_any existsb] in Hext.
  apply orb_false_elim in Hext. destruct Hext as [Hjpg Hext].
  apply orb_false_elim in Hext. destruct Hext as [Hjpeg Hext].
  apply orb_false_elim in Hext. destruct Hext as [Hpng _].
  assert (Hne : target <> input_path).
  { intros E. pose proof (jpg_target_ends_in_jpg input_path) as Hends.
    fold target in Hends. rewrite E in Hends. congruence. }
  apply optimize_image_success in H.
  destruct H as (data & img & fit & target' & fmt & written & lines
                 & _ & _ & _ & _ & Hsave & -> & ->).
  apply save_image_Ret in Hsave. destruct Hsave as (opts & data' & _ & _ & Hwhere).
  cbn [chosen] in Hwhere. rewrite Hpng in Hwhere.
  cbn [endswith_any existsb] in Hwhere. rewrite Hjpg, Hjpeg in Hwhere.
  cbn [orb] in Hwhere. destruct Hwhere as (-> & _ & _). fold target.
  split; [exact Hne |]. cbn [say write files]. split.
  - apply lookup_insert_ne. exact Hne.
  - exists written. split; [reflexivity |]. split; [apply lookup_insert_eq | reflexivity].
Qed.

(** C10.  When the output path (the input path when none is given) does
    not end in .png, [optimize_image] with [png_optimize] does all that
    it does without: the same result, the same files, the same lines. *)
Theorem png_flag_unused_for_jpeg (input_path : string) (output_path : option string)
    (max_width q : Z) (w : World) :
  endswith (lower (chosen input_path output_path)) ".png" = false ->
  optimize_image P input_path output_path max_width q true w
  = optimize_image P input_path output_path max_width q false w.
Proof.
  intros Hext. unfold optimize_image, optimize_image_body, save_image.
  fold (chosen input_path output_path). rewrite Hext. reflexivity.
Qed.

(** ** Failures *)

Lemma tame_pil_call (op : PilOp) (r : Image) : tame (pil_call P op r).
Proof. unfold pil_call. destruct (pil_refuses P op); tame_steps. Qed.

Lemma tame_Image_open (path : string) : tame (Image_open P path).
Proof.
  intros w r w'. unfold Image_open.
  destruct (files w !! path); [apply tame_lift |].
  destruct (dirs w !! path); intros H; inversion H; subst;
    (split; [apply extends_refl | discriminate]).
Qed.

Lemma tame_Image_save (img : Image) (path fmt : string) (opts : SaveOpts) :
  tame (Image_save P img path fmt opts).
Proof.
  intros w r w'. unfold Image_save.
  destruct (pil_encode P (files w) path fmt opts img);
    intros H; inversion H; subst; (split; [| discriminate]).
  - apply extends_write.
  - apply extends_refl.
Qed.

Lemma tame_convert_to_rgb (img : Image) : tame (convert_to_rgb P img).
Proof.
  intros w r w' H.
  destruct (convert_to_rgb_cases img w) as [E | (op & e & _ & E)];
    rewrite E in H; inversion H; subst; (split; [apply extends_refl | discriminate]).
Qed.

Lemma tame_resize (img : Image) (max_width ow oh : Z) :
  tame (resize_to_max_width P img max_width ow oh).
Proof.
  unfold resize_to_max_width, Image_resize.
  destruct (max_width <? width img); tame_steps. apply tame_pil_call.
Qed.

Lemma tame_save_image (img : Image) (p : string) (q : Z) (po : bool) :
  tame (save_image P img p q po).
Proof.
  unfold save_image.
  destruct (endswith (lower p) ".png"); tame_steps; apply tame_Image_save.
Qed.

Lemma tame_compression (n o : Z) : tame (compression n o).
Proof. unfold compression. destruct (0 <? o); tame_steps. Qed.

Lemma tame_body (input_path : string) (output_path : option string)
    (max_width q : Z) (po : bool) :
  tame (optimize_image_body P input_path output_path max_width q po).
Proof.
  unfold optimize_image_body.
  tame_steps;
    first [ apply tame_Image_open | apply tame_convert_to_rgb | apply tame_resize
          | apply tame_save_image | apply tame_compression ].
Qed.

Lemma tame_optimize_image (input_path : string) (output_path : option string)
    (max_width q : Z) (po : bool) :
  tame (optimize_image P input_path output_path max_width q po).
Proof.
  unfold optimize_image. apply tame_try_except; [apply tame_body |].
  intros e. tame_steps.
Qed.

(** The body of the [try] returns on its last line only. *)
Lemma body_Ret (input_path : string) (output_path : option string)
    (max_width q : Z) (po : bool) (r : bool * Z * Z) (w w' : World) :
  optimize_image_body P input_path output_path max_width q po w = (Ret r, w') ->
  fst (fst r) = true.
Proof.
  unfold optimize_image_body. intros H.
  repeat first
    [ split_bind H
    | match type of H with
      | context [let '(_, _) := ?p in _] => destruct p
      end ].
  inversion H. reflexivity.
Qed.

(** C5.  [optimize_image] raises nothing.  When a step of its body
    raises (the file cannot be read, Pillow cannot decode it, refuses a
    conversion, or cannot write), the exception is printed and the call
    returns [(False, 0, 0)]; otherwise it returns what the body returns,
    and that is a success. *)
Theorem failure_contained (input_path : string) (output_path : option string)
    (max_width q : Z) (po : bool) (w : World) :
  match optimize_image_body P input_path output_path max_width q po w with
  | (Ret r, w') =>
      optimize_image P input_path output_path max_width q po w = (Ret r, w') /\
      fst (fst r) = true
  | (Raise (Exception e), w') =>
      optimize_image P input_path output_path max_width q po w
      = (Ret (false, 0, 0), say w' [MsgFailed e])
  | (Raise (SystemExit _), _) => False
  end.
Proof.
  unfold optimize_image, try_except.
  destruct (optimize_image_body P input_path output_path max_width q po w)
    as [[r | [e | code]] w'] eqn:Hbody.
  - split; [reflexivity |]. eapply body_Ret. exact Hbody.
  - reflexivity.
  - destruct (tame_body _ _ _ _ _ _ _ _ Hbody) as [_ Hexit]. apply (Hexit code). reflexivity.
Qed.

(** The causes of failure the specification names, one by one. *)
Lemma unreadable_file_fails (input_path : string) (output_path : option string)
    (max_width q : Z) (po : bool) (w : World) :
  files w !! input_path = None ->
  exists e,
    optimize_image P input_path output_path max_width q po w
    = (Ret (false, 0, 0), say w [MsgFailed e]).
Proof.
  intros Hnone. unfold optimize_image, try_except, optimize_image_body.
  rewrite bind_eq. unfold os.path_getsize. rewrite Hnone.
  destruct (dirs w !! input_path) eqn:Hdir.
  - rewrite bind_eq. unfold Image_open. rewrite Hnone, Hdir. eexists. reflexivity.
  - eexists. reflexivity.
Qed.

Lemma decode_error_fails (input_path : string) (output_path : option string)
    (max_width q : Z) (po : bool) (w : World) (data : list Byte.byte) (e : exn) :
  files w !! input_path = Some data ->
  pil_decode P data = Err e ->
  optimize_image P input_path output_path max_width q po w
  = (Ret (false, 0, 0), say w [MsgFailed e]).
Proof.
  intros Hfile Hdec. unfold optimize_image, try_except, optimize_image_body.
  rewrite (bind_getsize_file _ _ _ _ Hfile), bind_eq.
  unfold Image_open. rewrite Hfile, Hdec. reflexivity.
Qed.

(** ** The batch *)

Lemma optimize_image_returns (input_path : string) (output_path : option string)
    (max_width q : Z) (po : bool) (w : World) :
  exists r w',
    optimize_image P input_path output_path max_width q po w = (Ret r, w') /\
    extends w w'.
Proof.
  destruct (optimize_image P input_path output_path max_width q po w) as [[r | x] w'] eqn:E.
  - exists r, w'. split; [reflexivity |]. eapply tame_optimize_image. exact E.
  - exfalso. unfold optimize_image, try_except in E.
    destruct (optimize_image_body P input_path output_path max_width q po w)
      as [[r | [e | code]] w1] eqn:Hbody.
    + discriminate E.
    + discriminate E.
    + destruct (tame_body _ _ _ _ _ _ _ _ Hbody) as [_ Hexit].
      apply (Hexit code). reflexivity.
Qed.

Lemma image_files_of_eq (directory : string) (names : list string) (w : World) :
  image_files_of directory names w
  = (Ret (List.filter (is_image_file w directory) names), w).
Proof.
  induction names as [| f names IH]; [reflexivity |].
  cbn [image_files_of List.filter]. rewrite bind_eq. unfold os.path_isfile at 1.
  rewrite bind_eq, IH.
  destruct (is_image_file w directory f) eqn:E; unfold is_image_file in E;
    cbn [mret M_ret]; rewrite E; reflexivity.
Qed.

Lemma process_file_eq (directory : string) (output_dir : option string)
    (max_width q : Z) (po : bool) (s a b : Z) (f : string) (w : World) :
  process_file P directory output_dir max_width q po (s, a, b) f w
  = match attempt P directory output_dir max_width q po f w with
    | (Ret (ok, o, n), w') =>
        (Ret (if (ok : bool) then (s + 1, a + o, b + n) else (s, a, b)), w')
    | (Raise x, w') => (Raise x, w')
    end.
Proof.
  unfold process_file. rewrite bind_eq.
  destruct (attempt P directory output_dir max_width q po f w)
    as [[[[ok o] n] | x] w']; [destruct ok |]; reflexivity.
Qed.

Lemma counters_eq (s a b s' a' b' : Z) (w : World) :
  s = s' -> a = a' -> b = b' ->
  (Ret (s, a, b), w) = (Ret (s', a', b'), w).
Proof. intros -> -> ->. reflexivity. Qed.

Lemma loop_tally (directory : string) (output_dir : option string)
    (max_width q : Z) (po : bool) (image_files : list string) :
  forall (s a b : Z) (w : World),
    for_each image_files (process_file P directory output_dir max_width q po) (s, a, b) w
    = match attempts P directory output_dir max_width q po image_files w with
      | (Ret rs, w') =>
          (Ret (s + fst (fst (tally rs)), a + snd (fst (tally rs)), b + snd (tally rs)), w')
      | (Raise x, w') => (Raise x, w')
      end.
Proof.
  induction image_files as [| f rest IH]; intros s a b w.
  - cbn. rewrite !Z.add_0_r. reflexivity.
  - cbn [for_each attempts]. rewrite bind_eq, process_file_eq, bind_eq.
    destruct (attempt P directory output_dir max_width q po f w)
      as [[[[ok o] n] | x] w1]; [| reflexivity].
    rewrite bind_eq.
    destruct ok; rewrite IH;
      destruct (attempts P directory output_dir max_width q po rest w1) as [[rs | x] w2];
      try reflexivity; unfold tally, successes; simpl; apply counters_eq; lia.
Qed.

(** When [os.makedirs] does not raise: the output directory is a
    directory already, or neither it, nor it without the separators that
    end it, nor a path above it is a regular file. *)
Lemma creatable_when (w : World) (output_dir : option string) :
  creatable w output_dir <->
  match given output_dir with
  | Some d =>
      is_Some (dirs w !! d) \/
      (d <> ""%string /\ files w !! d = None /\ files w !! rstrip_sep d = None /\
       List.Forall (fun a => files w !! a = None) (ancestors d))
  | None => True
  end.
Proof.
  unfold creatable. destruct (given output_dir) as [d |]; [| tauto].
  unfold os.makedirs. split.
  - intros [w1 H]. destruct (dirs w !! d) eqn:Ed; [left; eauto |]. right.
    destruct (files w !! d) eqn:Ef; [discriminate H |].
    destruct (String.eqb d "") eqn:En; [discriminate H |].
    destruct (bool_decide (is_Some (files w !! rstrip_sep d))) eqn:Eb; [discriminate H |].
    destruct (existsb _ (ancestors d)) eqn:Ee; [discriminate H |].
    split; [apply String.eqb_neq; exact En |]. split; [reflexivity |]. split.
    + apply bool_decide_eq_false in Eb.
      destruct (files w !! rstrip_sep d); [exfalso; apply Eb; eauto | reflexivity].
    + apply List.Forall_forall. intros a Ha.
      destruct (files w !! a) eqn:Ea; [| reflexivity]. exfalso.
      assert (Hex : existsb (fun a => bool_decide (is_Some (files w !! a))) (ancestors d)
                    = true).
      { apply existsb_exists. exists a. split; [exact Ha |].
        rewrite Ea. apply bool_decide_eq_true. eauto. }
      rewrite Hex in Ee. discriminate Ee.
  - intros [[l Hl] | (Hne & Hf & Hr & Hall)]; [rewrite Hl; eauto |].
    destruct (dirs w !! d); [eauto |]. rewrite Hf, Hr.
    apply String.eqb_neq in Hne. rewrite Hne.
    replace (bool_decide (is_Some (@None (list Byte.byte)))) with false
      by (symmetry; apply bool_decide_eq_false; intros [? ?]; discriminate).
    destruct (existsb _ (ancestors d)) eqn:Ee; [| eauto]. exfalso.
    apply existsb_exists in Ee. destruct Ee as (a & Ha & Hb).
    rewrite List.Forall_forall in Hall. rewrite (Hall a Ha) in Hb.
    apply bool_decide_eq_true in Hb. destruct Hb as [? Hb]. discriminate Hb.
Qed.



(** A turn of the loop that comes to its end is a call of
    [optimize_image], in the world its first lines leave. *)
Lemma attempt_inv (directory : string) (output_dir : option string)
    (max_width q : Z) (po : bool) (f : string) (r : bool * Z * Z) (w w' : World) :
  attempt P directory output_dir max_width q po f w = (Ret r, w') ->
  exists w0,
    entered output_dir f w w0 /\
    optimize_image P (join directory f) (output_for output_dir f) max_width q po w0
    = (Ret r, w').
Proof.
  unfold attempt, entered, output_for. rewrite bind_print. intros H.
  apply bind_Ret in H. destruct H as (size & wa & Hsize & H).
  apply path_getsize_Ret in Hsize. destruct Hsize as [-> _].
  apply bind_Ret in H. destruct H as (out & wb & Hout & H).
  destruct (given output_dir) as [d |].
  - apply bind_Ret in Hout. destruct Hout as (u & wc & Hmk & Hout).
    inversion Hout; subst. clear Hout.
    apply makedirs_Ret in Hmk. destruct Hmk as (Hf & Hc & Hd & Hds).
    exists wb. split; [| exact H]. repeat split; auto.
  - inversion Hout; subst. clear Hout.
    exists (say w [MsgProcessing f]). split; [| exact H]. repeat split; auto.
Qed.



Lemma summary_eq (n : Z) (counters : Z * Z * Z) (w : World) :
  summary n counters w = (Ret tt, say w (closing_lines n counters)).
Proof.
  destruct counters as [[s a] b]. unfold summary, closing_lines.
  rewrite !bind_print. destruct (0 <? s).
  - rewrite bind_eq, compression_eq.
    rewrite !truediv_1024, !bind_lift, bind_print, bind_lift.
    unfold print. rewrite !say_say. reflexivity.
  - cbn [mret M_ret]. rewrite !say_say. reflexivity.
Qed.


(** C8.  With a quality below 1 or above 100, [main] prints the error
    and leaves through [sys.exit(1)], and the world has that line more
    and nothing else changed; with a quality from 1 to 100, [main] is
    [optimize_directory] on the arguments. *)
Theorem quality_checked_first (args : Args) (w : World) :
  (args_quality args < 1 \/ 100 < args_quality args ->
   main P args w = (Raise (SystemExit 1), say w [MsgBadQuality])) /\
  (1 <= args_quality args <= 100 ->
   main P args w =
   optimize_directory P (args_dir args) (args_output args) (args_max_width args)
     (args_quality args) (negb (args_no_png_optimize args)) w).
Proof.
  unfold main. split; intros Hq; rewrite bind_eq.
  - replace ((1 <=? args_quality args) && (args_quality args <=? 100)) with false
      by (symmetry; apply andb_false_iff; rewrite Z.leb_gt, Z.leb_gt; lia).
    reflexivity.
  - replace ((1 <=? args_quality args) && (args_quality args <=? 100)) with true
      by (symmetry; apply andb_true_iff; rewrite !Z.leb_le; lia).
    reflexivity.
Qed.

End Facts.

(** ** Runs on the sample *)

Lemma wide_run_eq : Sample.wide_run = (Ret (true, 16, 6), snd Sample.wide_run).
Proof. vm_compute. reflexivity. Qed.

Lemma wide_opened : opened Sample.pillow Sample.imgs "imgs/wide.png" Sample.wide.
Proof. eexists. split; vm_compute; reflexivity. Qed.

Lemma icon_run_eq : Sample.icon_run = (Ret (true, 8, 6), snd Sample.icon_run).
Proof. vm_compute. reflexivity. Qed.

Lemma icon_opened : opened Sample.pillow Sample.imgs "imgs/icon.bmp" Sample.icon.
Proof. eexists. split; vm_compute; reflexivity. Qed.

Lemma resize_when_wider_witness :
  exists fit ratio,
    saved_picture Sample.pillow Sample.imgs (snd Sample.wide_run) fit /\
    width fit = 1200 /\
    PyNum.truediv 1200 (width Sample.wide) = Ok ratio /\
    scaled_height (height Sample.wide) ratio = Ok (height fit) /\
    pixels fit = Resample LANCZOS (size fit) (pixels (flattened Sample.wide)).
Proof.
  apply (resize_when_wider Sample.pillow "imgs/wide.png" None 1200 85 true 16 6
           Sample.imgs (snd Sample.wide_run) Sample.wide).
  - vm_compute. reflexivity.
  - eexists. split; vm_compute; reflexivity.
  - vm_compute. reflexivity.
Defined.

Lemma no_resize_when_narrow_witness :
  exists fit,
    saved_picture Sample.pillow Sample.imgs (snd Sample.icon_run) fit /\
    size fit = size Sample.icon /\
    pixels fit = pixels (flattened Sample.icon).
Proof.
  apply (no_resize_when_narrow Sample.pillow "imgs/icon.bmp" None 1200 85 true 8 6
           Sample.imgs (snd Sample.icon_run) Sample.icon).
  - vm_compute. reflexivity.
  - eexists. split; vm_compute; reflexivity.
  - vm_compute. intros H. discriminate H.
Defined.

(** The picture of 1392 by 145 is saved 124 high at [max_width] 1200:
    1200 / 1392 rounds below 25/29, and 145 times that is below 125. *)
Lemma wide_height :
  PyNum.truediv 1200 1392 = Ok (PyNum.fdiv_int 1200 1392) /\
  scaled_height 145 (PyNum.fdiv_int 1200 1392) = Ok 124 /\
  145 * 1200 / 1392 = 125.
Proof. repeat split; vm_compute; reflexivity. Qed.

Lemma floor_height_fails : ~ floor_height_claim.
Proof.
  intros Hclaim.
  destruct (Hclaim Sample.pillow "imgs/wide.png" None 1200 85 true 16 6
              Sample.imgs (snd Sample.wide_run) Sample.wide
              wide_run_eq wide_opened ltac:(vm_compute; reflexivity))
    as (fit & (target & fmt & opts & written & Henc & Hfiles) & Hw & Hh).
  change (height Sample.wide * 1200 / width Sample.wide) with (145 * 1200 / 1392) in Hh.
  destruct wide_height as (_ & _ & Hfloor). rewrite Hfloor in Hh.
  cbn [pil_encode Sample.pillow] in Henc. unfold Sample.encode in Henc.
  rewrite Hw, Hh in Henc. cbn [Z.ltb Z.compare Pos.compare Pos.compare_cont andb] in Henc.
  inversion Henc as [Hwritten]. clear Henc.
  apply (f_equal (fun m => m !! "imgs/wide.png"%string)) in Hfiles.
  rewrite lookup_insert in Hfiles.
  destruct (decide (target = "imgs/wide.png"%string)) as [-> | Hne].
  - rewrite <- Hwritten in Hfiles. vm_compute in Hfiles. discriminate Hfiles.
  - vm_compute in Hfiles. discriminate Hfiles.
Qed.

Lemma encoding_by_extension_witness :
  exists fit written,
    pil_encode Sample.pillow (files Sample.imgs) "imgs/icon.jpg" "JPEG"
               (mkSaveOpts (Some 85) (Some true) None) fit = Ok written /\
    files (snd Sample.icon_run) = <["imgs/icon.jpg"%string := written]> (files Sample.imgs).
Proof.
  destruct (encoding_by_extension Sample.pillow "imgs/icon.bmp" None 1200 85 true 8 6
              Sample.imgs (snd Sample.icon_run) ltac:(vm_compute; reflexivity))
    as (fit & target & fmt & opts & written & Henc & Hfiles & _ & Hext).
  vm_compute in Hext. destruct Hext as (-> & -> & ->).
  exists fit, written. split; [exact Henc | exact Hfiles].
Defined.

Lemma ratio_reported_witness :
  exists quotient,
    PyNum.truediv 6 8 = Ok quotient /\
    last (console (snd Sample.icon_run)) =
      Some (MsgRatio (PyNum.Float (PrimFloat.mul (PrimFloat.sub 1 quotient) 100))).
Proof.
  destruct (ratio_reported Sample.pillow "imgs/icon.bmp" None 1200 85 true 8 6
              Sample.imgs (snd Sample.icon_run) ltac:(vm_compute; reflexivity))
    as (_ & Hpos & _).
  apply Hpos. lia.
Defined.

Lemma in_place_other_extension_witness :
  "imgs/icon.jpg"%string <> "imgs/icon.bmp"%string /\
  files (snd Sample.icon_run) !! "imgs/icon.bmp"%string
  = files Sample.imgs !! "imgs/icon.bmp"%string /\
  exists written,
    files (snd Sample.icon_run) = <["imgs/icon.jpg"%string := written]> (files Sample.imgs) /\
    files (snd Sample.icon_run) !! "imgs/icon.jpg"%string = Some written /\
    6 = Z.of_nat (length written).
Proof.
  exact (in_place_other_extension Sample.pillow "imgs/icon.bmp" 1200 85 true 8 6
           Sample.imgs (snd Sample.icon_run)
           ltac:(vm_compute; reflexivity) ltac:(vm_compute; reflexivity)).
Defined.

Lemma png_flag_unused_for_jpeg_witness :
  optimize_image Sample.pillow "imgs/icon.bmp" None 1200 85 true Sample.imgs
  = optimize_image Sample.pillow "imgs/icon.bmp" None 1200 85 false Sample.imgs.
Proof.
  apply (png_flag_unused_for_jpeg Sample.pillow "imgs/icon.bmp" None 1200 85 Sample.imgs).
  vm_compute. reflexivity.
Defined.


(** The scenario of the specification: quality 150. *)
Lemma quality_150_exits :
  main Sample.pillow (mkArgs "imgs" None 1200 150 false) Sample.imgs
  = (Raise (SystemExit 1), say Sample.imgs [MsgBadQuality]).
Proof.
  apply (proj1 (quality_checked_first Sample.pillow
                  (mkArgs "imgs" None 1200 150 false) Sample.imgs)).
  right. vm_compute. reflexivity.
Defined.



(** ** Examples *)

Example lower_PNG : PyStr.lower "Photo.PNG" = "photo.png"%string.
Proof. reflexivity. Qed.

Example splitext_bmp :
  PyStr.splitext "imgs/icon.bmp" = ("imgs/icon"%string, ".bmp"%string).
Proof. reflexivity. Qed.

Example splitext_hidden :
  PyStr.splitext "imgs.d/.profile" = ("imgs.d/.profile"%string, ""%string).
Proof. reflexivity. Qed.

Example join_dir : PyStr.join "imgs" "a.png" = "imgs/a.png"%string.
Proof. reflexivity. Qed.

Example height_2000_1000 :
  scaled_height 1000 (PyNum.fdiv_int 1200 2000) = Ok 600.
Proof. vm_compute. reflexivity. Qed.

Example broken_jpg_fails :
  optimize_image Sample.pillow "imgs/broken.jpg" None 1200 85 true Sample.imgs
  = (Ret (false, 0, 0), say Sample.imgs [MsgFailed UnidentifiedImageError]).
Proof. vm_compute. reflexivity. Qed.

Example icon_ratio :
  last (console (snd Sample.icon_run)) = Some (MsgRatio (PyNum.Float 25)).
Proof. vm_compute. reflexivity. Qed.

Example batch_counts :
  In (MsgSucceeded 2 3)
     (console (snd (optimize_directory Sample.pillow "imgs" None 1200 85 true Sample.imgs))).
Proof. vm_compute. tauto. Qed.

Example paths_above :
  ancestors "out/new/deep" = ["out"; "out/new"]%string.
Proof. reflexivity. Qed.

Example makedirs_makes_parents :
  let made := dirs (snd (os.makedirs "out/new/deep" Sample.imgs)) in
  forallb (fun d => bool_decide (is_Some (made !! d)))
          ["out"; "out/new"; "out/new/deep"; "imgs"; "imgs/old"]%string = true /\
  made !! "imgs"%string = dirs Sample.imgs !! "imgs"%string.
Proof. vm_compute. split; reflexivity. Qed.

(** With [--output imgs/notes.txt/sub], under a regular file,
    [os.makedirs] raises as well. *)
Example makedirs_under_a_file :
  fst (optimize_directory Sample.pillow "imgs" (Some "imgs/notes.txt/sub"%string)
         1200 85 true Sample.imgs)
  = Raise (Exception NotADirectoryError).
Proof. vm_compute. reflexivity. Qed.

Example makedirs_on_a_file_and_separator :
  fst (os.makedirs "imgs/notes.txt/" Sample.imgs) = Raise (Exception FileExistsError).
Proof. vm_compute. reflexivity. Qed.

Example batch_into_new_directory :
  fst (optimize_directory Sample.pillow "imgs" (Some "out"%string) 1200 85 true Sample.imgs)
  = Ret tt.
Proof. vm_compute. reflexivity. Qed.

(** * Further properties *)

Lemma bind_Raise {A B : Type} (m : M A) (k : A -> M B) (w w' : World) (x : raised) :
  (a ← m; k a) w = (Raise x, w') ->
  m w = (Raise x, w') \/ exists a w1, m w = (Ret a, w1) /\ k a w1 = (Raise x, w').
Proof.
  rewrite bind_eq. destruct (m w) as [[a | r] w1]; intros H.
  - right. exists a, w1. auto.
  - left. inversion H. reflexivity.
Qed.

Lemma tame_Raise {A : Type} (m : M A) (w w' : World) (x : raised) :
  tame m -> m w = (Raise x, w') -> exists e, x = Exception e.
Proof.
  intros Ht H. destruct (Ht _ _ _ H) as [_ Hexit].
  destruct x as [e | code]; [eauto |]. exfalso. apply (Hexit code). reflexivity.
Qed.

Section Shape.

Variable P : Pillow.

Import PyStr.
Open Scope string_scope.
Open Scope Z_scope.

(** ** What each step does to the world *)

Lemma getsize_world (p : string) (r : outcome Z) (w w' : World) :
  os.path_getsize p w = (r, w') -> w' = w.
Proof.
  unfold os.path_getsize.
  destruct (files w !! p); [| destruct (dirs w !! p)]; intros H; inversion H; reflexivity.
Qed.

Lemma Image_open_world (p : string) (r : outcome Image) (w w' : World) :
  Image_open P p w = (r, w') -> w' = w.
Proof.
  unfold Image_open.
  destruct (files w !! p) as [data |].
  - destruct (pil_decode P data); intros H; inversion H; reflexivity.
  - destruct (dirs w !! p); intros H; inversion H; reflexivity.
Qed.

Lemma convert_world (img : Image) (r : outcome Image) (w w' : World) :
  convert_to_rgb P img w = (r, w') -> w' = w.
Proof.
  intros H. destruct (convert_to_rgb_cases P img w) as [E | (op & e & _ & E)];
    rewrite E in H; inversion H; reflexivity.
Qed.

Lemma resize_world (img : Image) (max_width ow oh : Z) (r : outcome Image) (w w' : World) :
  resize_to_max_width P img max_width ow oh w = (r, w') ->
  exists lines, resize_notice lines /\ w' = say w lines /\
                (lines <> [] -> exists fit, r = Ret fit).
Proof.
  unfold resize_to_max_width. destruct (max_width <? width img).
  - rewrite bind_lift.
    destruct (PyNum.truediv max_width (width img)) as [ratio | e].
    2: { intros H. inversion H. exists []. rewrite say_nil.
         split; [left; reflexivity |]. split; [reflexivity | congruence]. }
    rewrite bind_lift.
    destruct (scaled_height (height img) ratio) as [nh | e].
    2: { intros H. inversion H. exists []. rewrite say_nil.
         split; [left; reflexivity |]. split; [reflexivity | congruence]. }
    unfold Image_resize. rewrite bind_pil_call.
    destruct (pil_refuses P _).
    { intros H. inversion H. exists []. rewrite say_nil.
      split; [left; reflexivity |]. split; [reflexivity | congruence]. }
    rewrite bind_print. intros H. inversion H.
    eexists. split; [right; eauto |]. split; [reflexivity |]. eauto.
  - intros H. inversion H. exists []. rewrite say_nil.
    split; [left; reflexivity |]. split; [reflexivity | congruence].
Qed.

Lemma save_world (img : Image) (p : string) (q : Z) (po : bool)
    (r : outcome (string * string)) (w w' : World) :
  save_image P img p q po w = (r, w') ->
  (w' = w /\ exists x, r = Raise x) \/
  (exists target fmt data, r = Ret (target, fmt) /\ w' = write w target data).
Proof.
  intros H.
  destruct r as [[target fmt] | x].
  - right. apply save_image_Ret in H. destruct H as (opts & data & _ & Hw & _).
    exists target, fmt, data. auto.
  - left. split; [| eauto]. revert H. unfold save_image.
    destruct (endswith (lower p) ".png").
    + intros H. apply bind_Raise in H. destruct H as [H | (a & w1 & _ & H)];
        [| discriminate H].
      destruct po; unfold Image_save in H;
        match type of H with context [pil_encode ?a ?b ?c ?d ?e ?f] =>
          destruct (pil_encode a b c d e f) end; inversion H; reflexivity.
    + intros H. apply bind_Raise in H. destruct H as [H | (a & w1 & _ & H)];
        [| discriminate H].
      unfold Image_save in H.
      match type of H with context [pil_encode ?a ?b ?c ?d ?e ?f] =>
        destruct (pil_encode a b c d e f) end; inversion H; reflexivity.
Qed.

(** When the body of the [try] raises, it has written no file and
    printed at most the notice of the resize. *)
Lemma body_Raise (input_path : string) (output_path : option string)
    (max_width q : Z) (po : bool) (x : raised) (w w' : World) :
  optimize_image_body P input_path output_path max_width q po w = (Raise x, w') ->
  exists lines, resize_notice lines /\ w' = say w lines.
Proof.
  unfold optimize_image_body. intros H.
  assert (Hnone : forall v : World, v = w -> exists lines, resize_notice lines /\ v = say w lines).
  { intros v ->. exists []. rewrite say_nil. split; [left |]; reflexivity. }
  apply bind_Raise in H. destruct H as [H | (osz & w1 & Hm & H)].
  { apply Hnone. eapply getsize_world. exact H. }
  apply getsize_world in Hm. subst w1.
  apply bind_Raise in H. destruct H as [H | (first & w1 & Hm & H)].
  { apply Hnone. eapply Image_open_world. exact H. }
  apply Image_open_world in Hm. subst w1.
  destruct (size first) as [ow oh].
  apply bind_Raise in H. destruct H as [H | (img & w1 & Hm & H)].
  { apply Hnone. eapply Image_open_world. exact H. }
  apply Image_open_world in Hm. subst w1.
  apply bind_Raise in H. destruct H as [H | (rgb & w1 & Hm & H)].
  { apply Hnone. eapply convert_world. exact H. }
  apply convert_world in Hm. subst w1.
  apply bind_Raise in H. destruct H as [H | (fit & w1 & Hm & H)].
  { apply resize_world in H. destruct H as (lines & Hl & -> & _). eauto. }
  apply resize_world in Hm. destruct Hm as (lines & Hl & -> & _).
  apply bind_Raise in H. destruct H as [H | ([target fmt] & w1 & Hm & H)].
  { apply save_world in H. destruct H as [[-> _] | (t & f & d & Hr & _)];
      [eauto | discriminate Hr]. }
  exfalso.
  apply save_world in Hm. destruct Hm as [[_ [y Hy]] | (t & f & data & Hr & ->)];
    [discriminate Hy |].
  inversion Hr; subst t f.
  rewrite (bind_getsize_file target data) in H by apply lookup_insert_eq.
  rewrite bind_eq, compression_eq in H.
  rewrite !bind_print, (truediv_1024 osz), bind_lift, bind_print in H.
  rewrite truediv_1024, bind_lift, !bind_print in H.
  discriminate H.
Qed.

Lemma say_inj (w : World) (l1 l2 : list Msg) : say w l1 = say w l2 -> l1 = l2.
Proof.
  unfold say. intros H. inversion H as [Hc]. eapply app_inv_head. exact Hc.
Qed.

(** All that a call of [optimize_image] does, in one statement. *)
Lemma call_shape (input_path : string) (output_path : option string)
    (max_width q : Z) (po ok : bool) (o n : Z) (w w' : World) :
  optimize_image P input_path output_path max_width q po w = (Ret (ok, o, n), w') ->
  exists lines, resize_notice lines /\
    if ok then
      exists target fmt written,
        w' = say (write w target written)
                 (lines ++ [MsgDone (basename target); MsgFormat fmt;
                            MsgOriginalKB (PyNum.fdiv_int o 1024);
                            MsgNewKB (PyNum.fdiv_int n 1024);
                            MsgRatio (ratio_of n o)])%list
    else
      exists e, o = 0 /\ n = 0 /\ w' = say w (lines ++ [MsgFailed e])%list.
Proof.
  destruct ok; intros H.
  - apply optimize_image_success in H.
    destruct H as (data & img & fit & target & fmt & written & lines
                   & _ & _ & _ & Hfit & _ & _ & ->).
    exists lines. split; [| eauto].
    apply resize_world in Hfit. destruct Hfit as (lines' & Hl & Hw & _).
    apply say_inj in Hw. subst lines'. exact Hl.
  - unfold optimize_image, try_except in H.
    destruct (optimize_image_body P input_path output_path max_width q po w)
      as [[r | [e | code]] w1] eqn:Hbody.
    + apply body_Ret in Hbody. inversion H; subst. discriminate Hbody.
    + apply body_Raise in Hbody. destruct Hbody as (lines & Hl & ->).
      rewrite bind_print in H. inversion H; subst.
      exists lines. split; [exact Hl |]. exists e. rewrite say_say. auto.
    + discriminate H.
Qed.

(** ** Properties of [optimize_image] *)

(** X1.  The picture that a successful [optimize_image] hands to [save]
    is of mode RGB, whatever the mode of the input, and its width is the
    smaller of the width of the input and [max_width]. *)
Theorem saved_is_rgb_and_fits (input_path : string) (output_path : option string)
    (max_width q : Z) (po : bool) (o n : Z) (w w' : World) (img : Image) :
  optimize_image P input_path output_path max_width q po w = (Ret (true, o, n), w') ->
  opened P w input_path img ->
  exists fit,
    saved_picture P w w' fit /\
    mode fit = "RGB" /\
    width fit = Z.min (width img) max_width.
Proof.
  intros H Hopen.
  destruct (success_saved P _ _ _ _ _ _ _ _ _ _ H Hopen) as (fit & lines & Hfit & Hsaved).
  exists fit. split; [exact Hsaved |].
  apply resize_Ret in Hfit. rewrite flattened_width in Hfit.
  destruct Hfit as [(Hlt & ratio & nh & _ & _ & -> & _) | (Hle & -> & _)].
  - split; [apply flattened_mode |]. unfold width. cbn [size fst].
    fold (width img). lia.
  - split; [apply flattened_mode |]. rewrite flattened_width. lia.
Qed.



(** X3.  In place (no output path), on an input whose name ends in
    .jpg, .jpeg or .png, a successful [optimize_image] writes over the
    input itself: the original size returned is the size the file had,
    the new size is the size it has now, and no other path is written. *)
Theorem in_place_overwrites (input_path : string)
    (max_width q : Z) (po : bool) (o n : Z) (w w' : World) :
  optimize_image P input_path None max_width q po w = (Ret (true, o, n), w') ->
  endswith_any (lower input_path) [".jpg"; ".jpeg"; ".png"] = true ->
  exists data written,
    files w !! input_path = Some data /\
    o = Z.of_nat (length data) /\
    files w' = <[input_path := written]> (files w) /\
    n = Z.of_nat (length written).
Proof.
  intros H Hext. apply optimize_image_success in H.
  destruct H as (data & img & fit & target & fmt & written & lines
                 & Hfile & _ & -> & _ & Hsave & -> & ->).
  apply save_image_Ret in Hsave. destruct Hsave as (opts & data' & _ & _ & Hwhere).
  cbn [chosen] in Hwhere.
  assert (target = input_path) as ->.
  { destruct (endswith (lower input_path) ".png") eqn:Hpng.
    - destruct Hwhere as (-> & _). reflexivity.
    - destruct Hwhere as (-> & _).
      cbn [endswith_any existsb] in Hext |- *.
      rewrite Hpng, !orb_false_r in Hext. rewrite orb_false_r, Hext. reflexivity. }
  exists data, written. repeat split; auto.
Qed.

(** X4.  Whatever a call of [optimize_image] meets, it returns, it
    leaves the directories as they are, and every path that held a file
    still holds one; a success has written one path and nothing else. *)
Theorem only_the_target_changes (input_path : string) (output_path : option string)
    (max_width q : Z) (po : bool) (w : World) :
  match optimize_image P input_path output_path max_width q po w with
  | (Ret (ok, _, _), w') =>
      dirs w' = dirs w /\
      (forall p, is_Some (files w !! p) -> is_Some (files w' !! p)) /\
      (ok = true -> exists target written,
          files w' = <[target := written]> (files w) /\
          forall p, p <> target -> files w' !! p = files w !! p)
  | (Raise _, _) => False
  end.
Proof.
  destruct (optimize_image_returns P input_path output_path max_width q po w)
    as ([[ok o] n] & w' & Hrun & Hext).
  rewrite Hrun. pose proof (call_shape _ _ _ _ _ _ _ _ _ _ Hrun) as (lines & _ & Hshape).
  split; [| split; [apply Hext |]].
  - destruct ok.
    + destruct Hshape as (t & f & d & ->). reflexivity.
    + destruct Hshape as (e & _ & _ & ->). reflexivity.
  - intros ->. destruct Hshape as (t & f & d & ->). exists t, d.
    split; [reflexivity |]. intros p Hp. cbn. apply lookup_insert_ne. congruence.
Qed.

(** X5.  Each call of [optimize_image] prints one verdict: the line of
    success and no line of failure when it returns success, the line of
    failure and no line of success otherwise.  Before the verdict it
    prints at most the notice of a resize, and it never prints the line
    that opens a turn of the batch. *)
Theorem one_verdict_line (input_path : string) (output_path : option string)
    (max_width q : Z) (po : bool) (w : World) :
  match optimize_image P input_path output_path max_width q po w with
  | (Ret (ok, _, _), w') =>
      exists added,
        console w' = (console w ++ added)%list /\
        count is_done added = (if ok then 1 else 0)%nat /\
        count is_failed added = (if ok then 0 else 1)%nat /\
        omap processed added = []
  | (Raise _, _) => False
  end.
Proof.
  destruct (optimize_image_returns P input_path output_path max_width q po w)
    as ([[ok o] n] & w' & Hrun & _).
  rewrite Hrun. pose proof (call_shape _ _ _ _ _ _ _ _ _ _ Hrun) as (lines & Hl & Hshape).
  destruct ok.
  - destruct Hshape as (t & f & d & ->). eexists. split; [reflexivity |].
    destruct Hl as [-> | (a & b & c & e & ->)]; repeat split; reflexivity.
  - destruct Hshape as (e & _ & _ & ->). eexists. split; [reflexivity |].
    destruct Hl as [-> | (a & b & c & e' & ->)]; repeat split; reflexivity.
Qed.

(** ** The console and the directories through the batch *)

Lemma count_app (kind : Msg -> bool) (l1 l2 : list Msg) :
  count kind (l1 ++ l2) = (count kind l1 + count kind l2)%nat.
Proof. unfold count. rewrite List.filter_app, length_app. reflexivity. Qed.

Lemma call_log (input_path : string) (output_path : option string)
    (max_width q : Z) (po ok : bool) (o n : Z) (w w' : World) :
  optimize_image P input_path output_path max_width q po w = (Ret (ok, o, n), w') ->
  dirs w' = dirs w /\
  exists added,
    console w' = (console w ++ added)%list /\
    count is_done added = (if ok then 1 else 0)%nat /\
    count is_failed added = (if ok then 0 else 1)%nat /\
    omap processed added = [].
Proof.
  intros Hrun. pose proof (call_shape _ _ _ _ _ _ _ _ _ _ Hrun) as (lines & Hl & Hshape).
  destruct ok.
  - destruct Hshape as (t & f & d & ->). split; [reflexivity |].
    eexists. split; [reflexivity |].
    destruct Hl as [-> | (a & b & c & e & ->)]; repeat split; reflexivity.
  - destruct Hshape as (e & _ & _ & ->). split; [reflexivity |].
    eexists. split; [reflexivity |].
    destruct Hl as [-> | (a & b & c & e' & ->)]; repeat split; reflexivity.
Qed.

Lemma attempt_log (directory : string) (output_dir : option string)
    (max_width q : Z) (po ok : bool) (o n : Z) (f : string) (w w' : World) :
  attempt P directory output_dir max_width q po f w = (Ret (ok, o, n), w') ->
  ((given output_dir = None -> dirs w' = dirs w) /\
   (forall d, given output_dir = Some d -> is_Some (dirs w' !! d)) /\
   (forall p, is_Some (dirs w !! p) -> is_Some (dirs w' !! p))) /\
  exists added,
    console w' = (console w ++ MsgProcessing f :: added)%list /\
    count is_done added = (if ok then 1 else 0)%nat /\
    count is_failed added = (if ok then 0 else 1)%nat /\
    omap processed added = [].
Proof.
  intros H. apply attempt_inv in H.
  destruct H as (w0 & (Hc0 & _ & Hmono & Hd0) & Hcall).
  apply call_log in Hcall. destruct Hcall as (Hd & added & Hc & Hrest).
  split.
  { split; [| split].
    - intros E. rewrite E in Hd0. rewrite Hd. exact Hd0.
    - intros d E. rewrite E in Hd0. rewrite Hd. exact Hd0.
    - intros p Hp. rewrite Hd. apply Hmono. exact Hp. }
  exists added. split; [| exact Hrest].
  rewrite Hc, Hc0, <- app_assoc. reflexivity.
Qed.

Lemma attempts_log (directory : string) (output_dir : option string)
    (max_width q : Z) (po : bool) (image_files : list string) :
  forall (rs : list (bool * Z * Z)) (w w' : World),
    attempts P directory output_dir max_width q po image_files w = (Ret rs, w') ->
    ((image_files = [] \/ given output_dir = None -> dirs w' = dirs w) /\
     (forall d, given output_dir = Some d -> image_files <> [] ->
        is_Some (dirs w' !! d)) /\
     (forall p, is_Some (dirs w !! p) -> is_Some (dirs w' !! p))) /\
    length rs = length image_files /\
    exists added,
      console w' = (console w ++ added)%list /\
      omap processed added = image_files /\
      count is_done added = length (successes rs) /\
      (count is_done added + count is_failed added)%nat = length rs.
Proof.
  induction image_files as [| f rest IH]; intros rs w w' H.
  - inversion H; subst. split.
    { split; [reflexivity |]. split; [| auto]. intros d _ Hne. congruence. }
    split; [reflexivity |].
    exists []. rewrite app_nil_r. repeat split; reflexivity.
  - cbn [attempts] in H.
    apply bind_Ret in H. destruct H as ([[ok o] n] & wa & Hone & H).
    apply bind_Ret in H. destruct H as (rs' & wb & Hrest & H).
    inversion H; subst. clear H.
    apply attempt_log in Hone.
    destruct Hone as ((Hsame & Hmade & Hmono) & added & Hc & Hdone & Hfail & Hproc).
    apply IH in Hrest.
    destruct Hrest as ((Hsame' & _ & Hmono') & Hlen & more & Hc' & Hproc' & Hdone' & Hsum).
    split.
    { split; [| split].
      - intros [E | E]; [discriminate E |].
        rewrite Hsame' by (right; exact E). apply Hsame. exact E.
      - intros d E _. apply Hmono', (Hmade d E).
      - intros p Hp. apply Hmono', Hmono, Hp. }
    split; [cbn; rewrite Hlen; reflexivity |].
    exists (MsgProcessing f :: added ++ more)%list.
    split; [rewrite Hc', Hc, <- app_assoc; reflexivity |].
    split.
    { cbn [omap list_omap processed]. rewrite omap_app, Hproc, Hproc'. reflexivity. }
    change (MsgProcessing f :: added ++ more)%list
      with ([MsgProcessing f] ++ added ++ more)%list.
    rewrite !count_app, Hdone, Hfail, Hdone'.
    unfold successes in *. cbn [count List.filter is_done is_failed length fst].
    destruct ok; cbn [List.filter fst length]; split; lia.
Qed.

(** [optimize_directory] on a directory with some picture, in terms of
    the calls of the loop. *)
Lemma directory_run (directory : string) (output_dir : option string)
    (max_width q : Z) (po : bool) (w : World) (names : list string) :
  dirs w !! directory = Some names ->
  let image_files := List.filter (is_image_file w directory) names in
  let n := Z.of_nat (length image_files) in
  optimize_directory P directory output_dir max_width q po w
  = match image_files with
    | [] => (Ret tt, say w [MsgNoImages directory])
    | _ =>
        match attempts P directory output_dir max_width q po image_files
                (say w (opening_lines n max_width q po)) with
        | (Ret rs, w1) => (Ret tt, say w1 (closing_lines n (tally rs)))
        | (Raise x, w1) => (Raise x, w1)
        end
    end.
Proof.
  intros Hdir image_files n.
  unfold optimize_directory. rewrite bind_eq. unfold os.path_exists at 1.
  rewrite Hdir. replace (bool_decide (is_Some (Some names))) with true
    by (symmetry; apply bool_decide_eq_true; eauto).
  cbn [orb negb]. rewrite bind_eq. unfold os.listdir at 1. rewrite Hdir.
  rewrite bind_eq, image_files_of_eq. fold image_files.
  clearbody image_files. destruct image_files as [| f rest]; [reflexivity |].
  set (image_files := f :: rest) in *.
  rewrite !bind_print, !say_say. cbn [app]. subst n. unfold opening_lines.
  rewrite bind_eq, (loop_tally P directory output_dir max_width q po image_files 0 0 0).
  match goal with |- context [attempts ?a ?b ?c ?d ?e ?g ?h ?i] =>
    destruct (attempts a b c d e g h i) as [[rs | x] w1] end; [| reflexivity].
  rewrite !Z.add_0_l.
  replace (fst (fst (tally rs)), snd (fst (tally rs)), snd (tally rs)) with (tally rs)
    by (destruct (tally rs) as [[? ?] ?]; reflexivity).
  apply summary_eq.
Qed.

Lemma closing_lines_kinds (n : Z) (counters : Z * Z * Z) :
  omap processed (closing_lines n counters) = [] /\
  count is_done (closing_lines n counters) = 0%nat /\
  count is_failed (closing_lines n counters) = 0%nat.
Proof.
  destruct counters as [[s a] b]. unfold closing_lines.
  destruct (0 <? s); repeat split; reflexivity.
Qed.

(** ** Properties of [optimize_directory] and [main] *)

(** X6.  A run of [optimize_directory] on a directory that comes to its
    end has announced each name of the listing that is a file with a
    supported extension, once, in the order of the listing, and no other
    name; each of them got one verdict, so that the lines of success and
    the lines of failure add up to the number of files; and when there
    is a file at all, the summary gives as succeeded the number of lines
    of success that were printed. *)
Theorem each_file_once (directory : string) (output_dir : option string)
    (max_width q : Z) (po : bool) (w w' : World) (names : list string) :
  dirs w !! directory = Some names ->
  optimize_directory P directory output_dir max_width q po w = (Ret tt, w') ->
  let image_files := List.filter (is_image_file w directory) names in
  exists added,
    console w' = (console w ++ added)%list /\
    omap processed added = image_files /\
    (count is_done added + count is_failed added)%nat = length image_files /\
    (image_files <> [] ->
     In (MsgSucceeded (Z.of_nat (count is_done added)) (Z.of_nat (length image_files)))
        added).
Proof.
  intros Hdir Hrun image_files.
  rewrite (directory_run directory output_dir max_width q po w names Hdir) in Hrun.
  fold image_files in Hrun. clearbody image_files.
  destruct image_files as [| f rest].
  - inversion Hrun. exists [MsgNoImages directory].
    repeat split; try reflexivity. intros Hne. congruence.
  - set (image_files := f :: rest) in *.
    match type of Hrun with context [attempts ?a ?b ?c ?d ?e ?g ?h ?i] =>
      destruct (attempts a b c d e g h i) as [[rs | x] w1] eqn:Hruns end;
      [| discriminate Hrun].
    inversion Hrun; subst w'. clear Hrun.
    apply attempts_log in Hruns.
    destruct Hruns as (_ & Hlen & L & Hc & Hproc & Hdone & Hsum).
    set (n := Z.of_nat (length image_files)) in *.
    destruct (closing_lines_kinds n (tally rs)) as (Kp & Kd & Kf).
    exists (opening_lines n max_width q po ++ L ++ closing_lines n (tally rs))%list.
    split.
    { cbn [say console] in *. rewrite Hc, <- !app_assoc. reflexivity. }
    split.
    { rewrite !omap_app, Hproc, Kp, app_nil_r. reflexivity. }
    rewrite !count_app, Kd, Kf.
    change (count is_done (opening_lines n max_width q po)) with 0%nat.
    change (count is_failed (opening_lines n max_width q po)) with 0%nat.
    split; [lia |]. intros _.
    apply in_or_app. right. apply in_or_app. right.
    replace (0 + (count is_done L + 0))%nat with (length (successes rs)) by lia.
    unfold closing_lines, tally. cbn. auto.
Qed.

(** X7.  A run of [optimize_directory] on a directory that comes to its
    end leaves the directories as they were when no file of the listing
    is a picture or no output directory is given; with an output
    directory and at least one picture, the output directory is there
    afterwards, also when every picture fails. *)
Theorem output_directory_made (directory : string) (output_dir : option string)
    (max_width q : Z) (po : bool) (w w' : World) (names : list string) :
  dirs w !! directory = Some names ->
  optimize_directory P directory output_dir max_width q po w = (Ret tt, w') ->
  let image_files := List.filter (is_image_file w directory) names in
  (image_files = [] \/ given output_dir = None -> dirs w' = dirs w) /\
  (forall d, given output_dir = Some d -> image_files <> [] ->
     is_Some (dirs w' !! d)).
Proof.
  intros Hdir Hrun image_files.
  rewrite (directory_run directory output_dir max_width q po w names Hdir) in Hrun.
  fold image_files in Hrun. clearbody image_files.
  destruct image_files as [| f rest].
  - inversion Hrun. split; [reflexivity |]. intros d _ Hne. congruence.
  - set (image_files := f :: rest) in *.
    match type of Hrun with context [attempts ?a ?b ?c ?d ?e ?g ?h ?i] =>
      destruct (attempts a b c d e g h i) as [[rs | x] w1] eqn:Hruns end;
      [| discriminate Hrun].
    inversion Hrun; subst w'. clear Hrun.
    apply attempts_log in Hruns. destruct Hruns as ((Hsame & Hmade & _) & _).
    cbn [say dirs] in *. split.
    + intros [E | E]; [discriminate E |]. apply Hsame. right. exact E.
    + intros d E Hne. apply (Hmade d E Hne).
Qed.

(** X8.  [optimize_directory] on a path that is a regular file: the
    path exists, so the run goes on to list it, and [os.listdir] raises
    [NotADirectoryError], which nothing catches; nothing is printed and
    nothing is written. *)
Theorem directory_is_a_file (directory : string) (output_dir : option string)
    (max_width q : Z) (po : bool) (w : World) (data : list Byte.byte) :
  files w !! directory = Some data ->
  dirs w !! directory = None ->
  optimize_directory P directory output_dir max_width q po w
  = (Raise (Exception NotADirectoryError), w).
Proof.
  intros Hfile Hdir. unfold optimize_directory.
  rewrite bind_eq. unfold os.path_exists at 1. rewrite Hfile, Hdir.
  replace (bool_decide (is_Some (Some data))) with true
    by (symmetry; apply bool_decide_eq_true; eauto).
  rewrite orb_true_r. cbn [negb].
  rewrite bind_eq. unfold os.listdir at 1. rewrite Hfile, Hdir. reflexivity.
Qed.

(** X9.  [main] with a quality from 1 to 100 on a path where there is
    nothing: one line says that the directory does not exist, and [main]
    returns as after a run that went well, with no [sys.exit] and
    nothing written. *)
Theorem main_on_missing_directory (args : Args) (w : World) :
  1 <= args_quality args <= 100 ->
  dirs w !! args_dir args = None ->
  files w !! args_dir args = None ->
  main P args w = (Ret tt, say w [MsgNoDirectory (args_dir args)]).
Proof.
  intros Hq Hdir Hfile. unfold main. rewrite bind_eq.
  replace ((1 <=? args_quality args) && (args_quality args <=? 100)) with true
    by (symmetry; apply andb_true_iff; rewrite !Z.leb_le; lia).
  cbn [negb mret M_ret]. unfold optimize_directory.
  rewrite bind_eq. unfold os.path_exists at 1. rewrite Hfile, Hdir.
  replace (bool_decide (is_Some (@None (list string)))) with false
    by (symmetry; apply bool_decide_eq_false; intros [? ?]; discriminate).
  replace (bool_decide (is_Some (@None (list Byte.byte)))) with false
    by (symmetry; apply bool_decide_eq_false; intros [? ?]; discriminate).
  reflexivity.
Qed.

(** X10.  Whatever [optimize_directory] meets, and also when it
    raises, every path that held a file or a directory before still
    holds one after, and the run does not leave through [sys.exit]. *)
Theorem batch_removes_nothing (directory : string) (output_dir : option string)
    (max_width q : Z) (po : bool) (w : World) :
  let run := optimize_directory P directory output_dir max_width q po w in
  extends w (snd run) /\ forall code, fst run <> Raise (SystemExit code).
Proof.
  assert (Hfor : forall (l : list string) (c : Z * Z * Z),
            tame (for_each l (process_file P directory output_dir max_width q po) c)).
  { induction l as [| f l IH]; intros c; cbn [for_each]; [apply tame_mret |].
    apply tame_bind; [| intros c'; apply IH].
    unfold process_file, attempt. destruct c as [[s a] b].
    tame_steps; try apply tame_optimize_image. }
  assert (Htame : tame (optimize_directory P directory output_dir max_width q po)).
  { unfold optimize_directory. apply tame_bind.
    { intros v r v' H. inversion H; subst. split; [apply extends_refl | discriminate]. }
    intros present. destruct (negb present); [apply tame_print |].
    apply tame_bind.
    { intros v r v'. unfold os.listdir.
      destruct (dirs v !! directory); [| destruct (files v !! directory)];
        intros H; inversion H; subst; (split; [apply extends_refl | discriminate]). }
    intros names. apply tame_bind.
    { intros v r v' H. rewrite image_files_of_eq in H. inversion H; subst.
      split; [apply extends_refl | discriminate]. }
    intros image_files. destruct image_files as [| f rest]; [apply tame_print |].
    generalize (f :: rest). intros l.
    do 3 (apply tame_bind; [apply tame_print | intros _]).
    apply tame_bind; [apply Hfor | intros counters].
    intros v r v' H. rewrite summary_eq in H. inversion H; subst.
    split; [apply extends_say | discriminate]. }
  intros run. subst run.
  destruct (optimize_directory P directory output_dir max_width q po w) as [r w'] eqn:E.
  exact (Htame _ _ _ E).
Qed.

(** ** The name of the JPEG *)

Lemma append_empty (s : string) : s +:+ "" = s.
Proof.
  induction s as [| c s IH]; [reflexivity |].
  change (String c (s +:+ "") = String c s). rewrite IH. reflexivity.
Qed.

Lemma substring_all (s : string) : substring 0 (String.length s) s = s.
Proof.
  induction s as [| c s IH]; [reflexivity |]. cbn. rewrite IH. reflexivity.
Qed.

Lemma substring_split (s : string) :
  forall k : nat, (k <= String.length s)%nat ->
    substring 0 k s +:+ substring k (String.length s - k) s = s.
Proof.
  induction s as [| c s IH]; intros k Hk.
  - cbn in Hk. assert (k = 0%nat) as -> by lia. reflexivity.
  - destruct k as [| k].
    + change (substring 0 (String.length (String c s)) (String c s) = String c s).
      apply substring_all.
    + cbn [String.length] in Hk.
      change (String c (substring 0 k s +:+ substring k (String.length s - k) s)
              = String c s).
      rewrite IH by lia. reflexivity.
Qed.

Lemma rfind_bounds (c : ascii) (s : string) :
  -1 <= rfind c s < Z.of_nat (String.length s).
Proof.
  induction s as [| x s IH]; cbn [rfind String.length]; [lia |].
  destruct (Z.leb_spec 0 (rfind c s)); [lia |].
  destruct (Ascii.eqb x c); lia.
Qed.

(** After the last [c] there is no [c]. *)
Lemma rfind_after (c : ascii) (s : string) :
  forall k : nat, rfind c s < Z.of_nat k -> (k <= String.length s)%nat ->
    rfind c (substring k (String.length s - k) s) = -1.
Proof.
  induction s as [| x s IH]; intros k Hlast Hk.
  - cbn in Hk. assert (k = 0%nat) as -> by lia. reflexivity.
  - destruct k as [| k].
    + change (rfind c (substring 0 (String.length (String x s)) (String x s)) = -1).
      rewrite substring_all. pose proof (rfind_bounds c (String x s)). lia.
    + cbn [String.length] in Hk.
      change (rfind c (substring k (String.length s - k) s) = -1).
      apply IH; [| lia]. cbn [rfind] in Hlast.
      pose proof (rfind_bounds c s).
      destruct (Z.leb_spec 0 (rfind c s)); lia.
Qed.

(** At the last [c] there is [c]. *)
Lemma rfind_at (c : ascii) (s : string) :
  0 <= rfind c s -> exists rest, from (rfind c s) s = String c rest.
Proof.
  unfold from. induction s as [| x s IH]; cbn [rfind]; [lia |].
  destruct (Z.leb_spec 0 (rfind c s)) as [Hin | Hout].
  - intros _. destruct (IH Hin) as [rest Hrest]. exists rest.
    replace (Z.to_nat (rfind c s + 1)) with (S (Z.to_nat (rfind c s))) by lia.
    exact Hrest.
  - destruct (Ascii.eqb_spec x c) as [-> | _]; [| lia]. intros _.
    eexists. cbn. reflexivity.
Qed.

(** [os.path.splitext] cuts the path in two, and what it cuts off is
    nothing or starts at a dot and holds no separator. *)
Lemma splitext_parts (p : string) :
  p = fst (splitext p) +:+ snd (splitext p) /\
  rfind "/" (snd (splitext p)) = -1 /\
  (snd (splitext p) = "" \/ exists rest, snd (splitext p) = String "." rest).
Proof.
  unfold splitext.
  destruct ((rfind "/" p <? rfind "." p)
            && has_non_dot (substring (Z.to_nat (rfind "/" p + 1))
                                      (Z.to_nat (rfind "." p - (rfind "/" p + 1))) p))
    eqn:Hcut; cbn [fst snd].
  - apply andb_prop in Hcut. destruct Hcut as [Hlt _]. apply Z.ltb_lt in Hlt.
    pose proof (rfind_bounds "/" p) as Hsep. pose proof (rfind_bounds "." p) as Hdot.
    unfold upto, from. split; [| split].
    + symmetry. apply substring_split. lia.
    + apply rfind_after; lia.
    + right. apply (rfind_at "." p). lia.
  - split; [symmetry; apply append_empty |]. split; [reflexivity | left; reflexivity].
Qed.

(** X11.  When the path to write (the input path when none is given)
    ends in none of .jpg, .jpeg and .png, a successful [optimize_image]
    writes beside it: the path is [root + ext], where [ext] is nothing
    or starts at a dot and holds no [/], and the one file written is
    [root + ".jpg"]. *)
Theorem jpg_lands_beside (input_path : string) (output_path : option string)
    (max_width q : Z) (po : bool) (o n : Z) (w w' : World) :
  optimize_image P input_path output_path max_width q po w = (Ret (true, o, n), w') ->
  endswith_any (lower (chosen input_path output_path)) [".jpg"; ".jpeg"; ".png"] = false ->
  exists root ext written,
    chosen input_path output_path = root +:+ ext /\
    rfind "/" ext = -1 /\
    (ext = "" \/ exists rest, ext = String "." rest) /\
    files w' = <[root +:+ ".jpg" := written]> (files w).
Proof.
  intros H Hext.
  cbn [endswith_any existsb] in Hext.
  apply orb_false_elim in Hext. destruct Hext as [Hjpg Hext].
  apply orb_false_elim in Hext. destruct Hext as [Hjpeg Hext].
  apply orb_false_elim in Hext. destruct Hext as [Hpng _].
  apply optimize_image_success in H.
  destruct H as (data & img & fit & target & fmt & written & lines
                 & _ & _ & _ & _ & Hsave & _ & ->).
  apply save_image_Ret in Hsave. destruct Hsave as (opts & data' & _ & _ & Hwhere).
  rewrite Hpng in Hwhere. cbn [endswith_any existsb] in Hwhere.
  rewrite Hjpg, Hjpeg in Hwhere. cbn [orb] in Hwhere. destruct Hwhere as (-> & _ & _).
  destruct (splitext_parts (chosen input_path output_path)) as (Hcut & Hsep & Hdot).
  exists (fst (splitext (chosen input_path output_path))),
         (snd (splitext (chosen input_path output_path))), written.
  repeat split; auto.
Qed.

(** X13.  The sizes that a successful [optimize_image] returns are
    measured: the original size is the number of bytes the input file
    had when the call began, the new size is the number of bytes of the
    file at the path written when the call ends, and neither is
    negative. *)
Theorem sizes_are_measured (input_path : string) (output_path : option string)
    (max_width q : Z) (po : bool) (o n : Z) (w w' : World) :
  optimize_image P input_path output_path max_width q po w = (Ret (true, o, n), w') ->
  exists data written,
    files w !! input_path = Some data /\
    o = Z.of_nat (length data) /\
    files w' !! target_of (chosen input_path output_path) = Some written /\
    n = Z.of_nat (length written) /\
    0 <= o /\ 0 <= n.
Proof.
  intros H. apply optimize_image_success in H.
  destruct H as (data & img & fit & target & fmt & written & lines
                 & Hfile & _ & -> & _ & Hsave & -> & ->).
  apply save_image_Ret in Hsave. destruct Hsave as (opts & data' & _ & _ & Hwhere).
  assert (target = target_of (chosen input_path output_path)) as ->.
  { unfold target_of. destruct (endswith (lower (chosen input_path output_path)) ".png").
    - destruct Hwhere as (-> & _). reflexivity.
    - destruct Hwhere as (-> & _). reflexivity. }
  exists data, written. split; [exact Hfile |]. split; [reflexivity |].
  split; [cbn; apply lookup_insert_eq |]. split; [reflexivity | lia].
Qed.

Lemma call_frame (input_path : string) (output_path : option string)
    (max_width q : Z) (po : bool) (r : outcome (bool * Z * Z)) (w w' : World) :
  optimize_image P input_path output_path max_width q po w = (r, w') ->
  forall p, p <> target_of (chosen input_path output_path) ->
    files w' !! p = files w !! p.
Proof.
  intros Hrun p Hp.
  destruct (optimize_image_returns P input_path output_path max_width q po w)
    as ([[ok o] n] & w2 & Hrun2 & _).
  rewrite Hrun in Hrun2. inversion Hrun2; subst r w2. clear Hrun2.
  destruct ok.
  - apply optimize_image_success in Hrun.
    destruct Hrun as (data & img & fit & target & fmt & written & lines
                      & _ & _ & _ & _ & Hsave & _ & ->).
    apply save_image_Ret in Hsave. destruct Hsave as (opts & data' & _ & _ & Hwhere).
    assert (target = target_of (chosen input_path output_path)) as ->.
    { unfold target_of. destruct (endswith (lower (chosen input_path output_path)) ".png").
      - destruct Hwhere as (-> & _). reflexivity.
      - destruct Hwhere as (-> & _). reflexivity. }
    cbn. apply lookup_insert_ne. congruence.
  - apply call_shape in Hrun. destruct Hrun as (lines & _ & e & _ & _ & ->). reflexivity.
Qed.

Lemma attempt_frame (directory : string) (output_dir : option string)
    (max_width q : Z) (po : bool) (f : string) (r : bool * Z * Z) (w w' : World) :
  attempt P directory output_dir max_width q po f w = (Ret r, w') ->
  forall p, p <> out_path directory output_dir f -> files w' !! p = files w !! p.
Proof.
  intros H p Hp. apply attempt_inv in H.
  destruct H as (w0 & (_ & Hf0 & _) & Hcall).
  rewrite <- Hf0. apply (call_frame _ _ _ _ _ _ _ _ Hcall).
  unfold out_path, output_for in *. destruct (given output_dir); exact Hp.
Qed.

Lemma attempts_frame (directory : string) (output_dir : option string)
    (max_width q : Z) (po : bool) (image_files : list string) :
  forall (rs : list (bool * Z * Z)) (w w' : World),
    attempts P directory output_dir max_width q po image_files w = (Ret rs, w') ->
    forall p, (forall f, In f image_files -> p <> out_path directory output_dir f) ->
      files w' !! p = files w !! p.
Proof.
  induction image_files as [| f rest IH]; intros rs w w' H p Hp.
  - inversion H. reflexivity.
  - cbn [attempts] in H. split_bind H. split_bind H. inversion H; subst. clear H.
    rewrite (IH _ _ _ Hm0 p) by (intros g Hg; apply Hp; right; exact Hg).
    apply (attempt_frame _ _ _ _ _ _ _ _ _ Hm). apply Hp. left. reflexivity.
Qed.

(** X14.  A run of [optimize_directory] on a directory that comes to
    its end has changed the bytes of no path but the paths it writes for
    the files with a supported extension: for each such file the path
    made of the output directory (the directory itself when none is
    given) and the name, with the extension replaced by .jpg unless it
    is .png, .jpg or .jpeg.  Files of other kinds are left as they
    are. *)
Theorem batch_touches_only_targets (directory : string) (output_dir : option string)
    (max_width q : Z) (po : bool) (w w' : World) (names : list string) :
  dirs w !! directory = Some names ->
  optimize_directory P directory output_dir max_width q po w = (Ret tt, w') ->
  forall p,
    (forall f, In f names -> is_image_file w directory f = true ->
               p <> out_path directory output_dir f) ->
    files w' !! p = files w !! p.
Proof.
  intros Hdir Hrun p Hp.
  rewrite (directory_run directory output_dir max_width q po w names Hdir) in Hrun.
  assert (Hp' : forall f, In f (List.filter (is_image_file w directory) names) ->
                          p <> out_path directory output_dir f).
  { intros f Hf. apply filter_In in Hf. destruct Hf as [Hin Hsel]. apply Hp; assumption. }
  clear Hp.
  destruct (List.filter (is_image_file w directory) names) as [| f rest].
  - inversion Hrun. reflexivity.
  - match type of Hrun with context [attempts ?a ?b ?c ?d ?e ?g ?h ?i] =>
      destruct (attempts a b c d e g h i) as [[rs | x] w1] eqn:Hruns end;
      [| discriminate Hrun].
    inversion Hrun; subst w'. clear Hrun.
    cbn [say files]. rewrite (attempts_frame _ _ _ _ _ _ _ _ _ Hruns p Hp'). reflexivity.
Qed.

(** X12.  An input that is no file Pillow can decode (nothing at the
    path, a directory, or bytes that are no picture) makes
    [optimize_image] return [(False, 0, 0)] after one line of failure,
    and nothing else has changed: no file is written, so that in place
    the bytes that could not be read are kept. *)
Theorem bad_input_changes_nothing (input_path : string) (output_path : option string)
    (max_width q : Z) (po : bool) (w : World) :
  (forall img, ~ opened P w input_path img) ->
  exists e,
    optimize_image P input_path output_path max_width q po w
    = (Ret (false, 0, 0), say w [MsgFailed e]).
Proof.
  intros Hbad. destruct (files w !! input_path) as [data |] eqn:Hfile.
  - destruct (pil_decode P data) as [img | e] eqn:Hdec.
    + exfalso. apply (Hbad img). exists data. auto.
    + exists e. eapply decode_error_fails; eauto.
  - apply unreadable_file_fails. exact Hfile.
Qed.

End Shape.

(** ** Runs on the sample, again *)

Lemma saved_is_rgb_and_fits_witness :
  exists fit,
    saved_picture Sample.pillow Sample.imgs (snd Sample.wide_run) fit /\
    mode fit = "RGB"%string /\
    width fit = Z.min (width Sample.wide) 1200.
Proof.
  apply (saved_is_rgb_and_fits Sample.pillow "imgs/wide.png" None 1200 85 true 16 6
           Sample.imgs (snd Sample.wide_run) Sample.wide).
  - vm_compute. reflexivity.
  - eexists. split; vm_compute; reflexivity.
Defined.


Lemma in_place_overwrites_witness :
  exists data written,
    files Sample.imgs !! "imgs/wide.png"%string = Some data /\
    16 = Z.of_nat (length data) /\
    files (snd Sample.wide_run) = <["imgs/wide.png"%string := written]> (files Sample.imgs) /\
    6 = Z.of_nat (length written).
Proof.
  apply (in_place_overwrites Sample.pillow "imgs/wide.png" 1200 85 true 16 6
           Sample.imgs (snd Sample.wide_run)).
  - vm_compute. reflexivity.
  - vm_compute. reflexivity.
Defined.

Lemma each_file_once_witness :
  exists added,
    console (snd (optimize_directory Sample.pillow "imgs" None 1200 85 true Sample.imgs))
    = (console Sample.imgs ++ added)%list /\
    omap processed added = ["wide.png"; "icon.bmp"; "broken.jpg"]%string /\
    (count is_done added + count is_failed added)%nat = 3%nat.
Proof.
  destruct (each_file_once Sample.pillow "imgs" None 1200 85 true Sample.imgs
              (snd (optimize_directory Sample.pillow "imgs" None 1200 85 true Sample.imgs))
              ["wide.png"; "icon.bmp"; "broken.jpg"; "notes.txt"; "old"]%string
              ltac:(vm_compute; reflexivity) ltac:(vm_compute; reflexivity))
    as (added & Hc & Hp & Hn & _).
  exists added. split; [exact Hc |]. split; [exact Hp | exact Hn].
Defined.

Lemma output_directory_made_witness :
  is_Some (dirs (snd (optimize_directory Sample.pillow "imgs" (Some "out"%string)
                        1200 85 true Sample.imgs)) !! "out"%string).
Proof.
  destruct (output_directory_made Sample.pillow "imgs" (Some "out"%string) 1200 85 true
              Sample.imgs
              (snd (optimize_directory Sample.pillow "imgs" (Some "out"%string)
                      1200 85 true Sample.imgs))
              ["wide.png"; "icon.bmp"; "broken.jpg"; "notes.txt"; "old"]%string
              ltac:(vm_compute; reflexivity) ltac:(vm_compute; reflexivity))
    as (_ & Hmade).
  apply (Hmade "out"%string); [reflexivity |]. vm_compute. discriminate.
Defined.

Lemma directory_is_a_file_witness :
  optimize_directory Sample.pillow "imgs/notes.txt" None 1200 85 true Sample.imgs
  = (Raise (Exception NotADirectoryError), Sample.imgs).
Proof.
  apply (directory_is_a_file Sample.pillow "imgs/notes.txt" None 1200 85 true Sample.imgs
           [Sample.byte_of 104; Sample.byte_of 105]).
  - vm_compute. reflexivity.
  - vm_compute. reflexivity.
Defined.

Lemma main_on_missing_directory_witness :
  main Sample.pillow (mkArgs "nowhere" None 1200 85 false) Sample.imgs
  = (Ret tt, say Sample.imgs [MsgNoDirectory "nowhere"]).
Proof.
  apply (main_on_missing_directory Sample.pillow
           (mkArgs "nowhere" None 1200 85 false) Sample.imgs).
  - cbn. lia.
  - vm_compute. reflexivity.
  - vm_compute. reflexivity.
Defined.

Lemma jpg_lands_beside_witness :
  exists root ext written,
    "imgs/icon.bmp"%string = (root +:+ ext)%string /\
    PyStr.rfind "/" ext = -1 /\
    (ext = ""%string \/ exists rest, ext = String "." rest) /\
    files (snd Sample.icon_run) = <[(root +:+ ".jpg")%string := written]> (files Sample.imgs).
Proof.
  apply (jpg_lands_beside Sample.pillow "imgs/icon.bmp" None 1200 85 true 8 6
           Sample.imgs (snd Sample.icon_run)).
  - vm_compute. reflexivity.
  - vm_compute. reflexivity.
Defined.

Lemma bad_input_changes_nothing_witness :
  exists e,
    optimize_image Sample.pillow "imgs/broken.jpg" None 1200 85 true Sample.imgs
    = (Ret (false, 0, 0), say Sample.imgs [MsgFailed e]).
Proof.
  apply (bad_input_changes_nothing Sample.pillow "imgs/broken.jpg" None 1200 85 true
           Sample.imgs).
  intros img (data & Hfile & Hdec). vm_compute in Hfile. inversion Hfile; subst.
  vm_compute in Hdec. discriminate Hdec.
Defined.

Lemma sizes_are_measured_witness :
  exists data written,
    files Sample.imgs !! "imgs/icon.bmp"%string = Some data /\
    8 = Z.of_nat (length data) /\
    files (snd Sample.icon_run) !! "imgs/icon.jpg"%string = Some written /\
    6 = Z.of_nat (length written) /\
    0 <= 8 /\ 0 <= 6.
Proof.
  exact (sizes_are_measured Sample.pillow "imgs/icon.bmp" None 1200 85 true 8 6
           Sample.imgs (snd Sample.icon_run) ltac:(vm_compute; reflexivity)).
Defined.

Lemma batch_touches_only_targets_witness :
  files (snd (optimize_directory Sample.pillow "imgs" None 1200 85 true Sample.imgs))
    !! "imgs/notes.txt"%string
  = files Sample.imgs !! "imgs/notes.txt"%string.
Proof.
  apply (batch_touches_only_targets Sample.pillow "imgs" None 1200 85 true Sample.imgs
           (snd (optimize_directory Sample.pillow "imgs" None 1200 85 true Sample.imgs))
           ["wide.png"; "icon.bmp"; "broken.jpg"; "notes.txt"; "old"]%string).
  - vm_compute. reflexivity.
  - vm_compute. reflexivity.
  - intros f Hin Hsel.
    repeat (destruct Hin as [<- | Hin]; [first [discriminate Hsel | vm_compute; discriminate] |]).
    destruct Hin.
Defined.
